(** * FlinkApplication: the Kinesis Data Analytics construct

    A shallow embedding of [source/lib/kda-flink-application.ts] and the
    properties its specification states about it.

    The construct is a definition-time graph builder: its constructor
    validates two verbosity inputs, then defines child constructs in a
    fixed order, mutating two of them (the application role and the VPC
    policy) on the way.  The embedding keeps that shape: the constructor
    is a computation in a small state-and-exception monad over the
    construct's own node ([This]), children are kept in definition order,
    and the objects the source mutates after creation live in that store
    and are referred to by their construct id. *)

From stdpp Require Import base option list strings gmap fin_maps.

Local Open Scope string_scope.

(** ** Strings *)

(** [isPrefixOf p s]: [s] starts with [p]. *)
Fixpoint isPrefixOf (p s : string) : bool :=
  match p, s with
  | EmptyString, _ => true
  | String a p', String b s' => if Ascii.eqb a b then isPrefixOf p' s' else false
  | String _ _, EmptyString => false
  end.

(** [includesStr sub s]: JavaScript's [s.includes(sub)], [sub] occurs in
    [s] as a contiguous run of characters. *)
Fixpoint includesStr (sub s : string) : bool :=
  isPrefixOf sub s ||
  match s with
  | EmptyString => false
  | String _ s' => includesStr sub s'
  end.

(** [Array.prototype.includes] on an array of strings: membership by
    strict (case-sensitive) equality. *)
Fixpoint includes (xs : list string) (x : string) : bool :=
  match xs with
  | [] => false
  | y :: ys => String.eqb y x || includes ys x
  end.

(** ** The CDK surface the construct relies on

    These come from [@aws-cdk/core] and are not part of the repository:
    the test for deferred values, the pseudo-parameter tokens, and the
    tokens a resource hands out for its name, its attributes and its
    logical id.  They are kept abstract; every definition below is
    parametrised by them. *)

Class Cdk := {
  (** [cdk.Token.isUnresolved] on a string *)
  isUnresolved : string → bool;
  (** [cdk.Aws.PARTITION], [cdk.Aws.REGION], [cdk.Aws.ACCOUNT_ID] *)
  Aws_PARTITION : string;
  Aws_REGION : string;
  Aws_ACCOUNT_ID : string;
  (** the [Ref] token of the resource at a construct path *)
  refToken : string → string;
  (** the token of a named attribute of the resource at a construct path *)
  attToken : string → string → string;
  (** [CfnElement.logicalId] of the element at a construct path *)
  logicalIdToken : string → string
}.

(** ** Data model *)

(** [logs.RetentionDays], a numeric enum: the number of days. *)
Definition RetentionDays := nat.

Inductive RemovalPolicy := DESTROY | RETAIN | SNAPSHOT.

(** [kinesis.IStream] and [s3.IBucket], as far as the construct uses them:
    a name attribute and a grant method (below). *)
Record IStream := { streamName : string }.
Record IBucket := { bucketName : string }.

Record FlinkApplicationProps := {
  inputStream : IStream;
  outputBucket : IBucket;
  logsRetentionDays : RetentionDays;
  logLevel : string;
  metricsLevel : string;
  codeBucketArn : string;
  codeFileKey : string;
  enableSnapshots : string;
  enableAutoScaling : string;
  subnetIds : option (list string);
  securityGroupIds : option (list string)
}.

Record PolicyStatement := {
  resources : list string;
  actions : list string
}.

Record PolicyDocument := { doc_statements : list PolicyStatement }.

(** One entry of [cfn_nag.rules_to_suppress]. *)
Record NagRule := { nag_id : string; nag_reason : string }.

(** [iam.Policy]: its statements, the roles it was attached to, and the
    metadata of its underlying [CfnPolicy]. *)
Record Policy := {
  statements : list PolicyStatement;
  policy_roles : list string;
  rules_to_suppress : list NagRule
}.

(** What a resource's own grant method adds to the grantee's principal
    policy.  The construct delegates these to the stream and the bucket;
    the entry records which resource granted which capability. *)
Inductive Grant :=
| StreamRead (s : IStream)
| BucketReadWrite (b : IBucket).

(** [iam.Role]: the principal that may assume it, the inline policies
    attached to it, by construct id relative to this construct (the
    role's own default policy, a child of the role, is
    [<role>/DefaultPolicy]), and the grants its default policy holds. *)
Record Role := {
  assumedBy : string;
  attachedPolicies : list string;
  principalGrants : list Grant
}.

(** [ICfnConditionExpression], as built by [cdk.Fn.conditionEquals]. *)
Inductive CfnConditionExpression :=
| FnEquals (lhs rhs : string).

(** A boolean property that may hold a deferred value: a literal, or the
    [Fn::If] built by [cdk.Fn.conditionIf]. *)
Inductive BoolOrResolvable :=
| BoolLit (b : bool)
| FnIf (conditionId : string) (valueIfTrue valueIfFalse : bool).

Record CfnApplicationV2Props := {
  runtimeEnvironment : string;
  serviceExecutionRole : string;
  s3ContentLocation_bucketArn : string;
  s3ContentLocation_fileKey : string;
  codeContentType : string;
  propertyGroupId : string;
  propertyMap : list (string * string);
  monitoring_configurationType : string;
  monitoring_logLevel : string;
  monitoring_metricsLevel : string;
  parallelism_configurationType : string;
  autoScalingEnabled : BoolOrResolvable;
  checkpoint_configurationType : string;
  snapshotsEnabled : BoolOrResolvable
}.

Record FunctionProps := {
  fn_runtime : string;
  fn_handler : string;
  fn_role : string;
  fn_code : string;
  fn_timeout_seconds : nat
}.

(** A value of the custom resource's [properties] object. *)
Inductive JsValue :=
| JString (s : string)
| JArray (xs : list string).

Record CustomResourceProps := {
  serviceToken : string;
  properties : gmap string JsValue;
  resourceType : string
}.

(** The constructs this one defines under itself.  [RIncomplete] is a
    construct whose node was registered but whose constructor threw
    before it defined its resource. *)
Inductive Resource :=
| RLogGroup (retention : RetentionDays) (removalPolicy : RemovalPolicy)
| RLogStream (logGroup : string) (removalPolicy : RemovalPolicy)
| RRole (r : Role)
| RPolicy (p : Policy)
| RCfnCondition (expression : CfnConditionExpression)
| RCfnApplicationV2 (props : CfnApplicationV2Props)
| RCfnApplicationCloudWatchLoggingOptionV2 (applicationName logStreamArn : string)
| RExecutionRole (inlinePolicyName : string) (inlinePolicyDocument : PolicyDocument)
| RFunction (props : FunctionProps)
| RCustomResource (props : CustomResourceProps)
| RIncomplete.

(** The construct's own node: the path it was created at ([scope] and
    [id] of the constructor), its children in definition order, and its
    two private fields, which hold the construct id of the object they
    refer to once assigned. *)
Record This := {
  path : string;
  children : list (string * Resource);
  LogGroup : option string;
  Application : option string
}.

(** The node right after [super(scope, id)]. *)
Definition newConstruct (scope id : string) : This :=
  {| path := scope ++ "/" ++ id; children := []; LogGroup := None; Application := None |}.

(** ** The constructor monad: state over [This], with exceptions *)

Inductive Completion (A : Type) :=
| Normal (a : A)
| Throw (message : string).
Arguments Normal {A} a.
Arguments Throw {A} message.

Definition Ctor (A : Type) : Type := This → Completion A * This.

Definition ret {A} (a : A) : Ctor A := λ t, (Normal a, t).

Definition bind {A B} (m : Ctor A) (k : A → Ctor B) : Ctor B :=
  λ t, match m t with
       | (Normal a, t') => k a t'
       | (Throw e, t') => (Throw e, t')
       end.

Definition throw {A} (message : string) : Ctor A := λ t, (Throw message, t).

Definition getThis : Ctor This := λ t, (Normal t, t).

Definition modifyThis (f : This → This) : Ctor unit := λ t, (Normal tt, f t).

Declare Scope ctor_scope.
Delimit Scope ctor_scope with ctor.
Notation "'let!' x ':=' m 'in' k" := (bind m (λ x, k))
  (at level 10, x name, m at level 100, k at level 200) : ctor_scope.
Notation "m ';;' k" := (bind m (λ _, k))
  (at level 100, k at level 200, right associativity) : ctor_scope.
Local Open Scope ctor_scope.

(** ** Store operations *)

Fixpoint lookupChild (id : string) (cs : list (string * Resource)) : option Resource :=
  match cs with
  | [] => None
  | (k, r) :: cs' => if String.eqb k id then Some r else lookupChild id cs'
  end.

Fixpoint alterChild (f : Resource → Resource) (id : string)
    (cs : list (string * Resource)) : list (string * Resource) :=
  match cs with
  | [] => []
  | (k, r) :: cs' =>
      if String.eqb k id then (k, f r) :: cs' else (k, r) :: alterChild f id cs'
  end.

Definition withChildren (f : list (string * Resource) → list (string * Resource)) (t : This) : This :=
  {| path := path t; children := f (children t); LogGroup := LogGroup t; Application := Application t |}.

(** [new X(this, id, ...)]: the new construct is appended to the
    children of [this] and is thereafter known by its id.  A second child
    with the same id is refused by the construct tree. *)
Definition newChild (id : string) (r : Resource) : Ctor string :=
  let! t := getThis in
  match lookupChild id (children t) with
  | Some _ => throw ("There is already a Construct with name '" ++ id ++ "'")
  | None => modifyThis (withChildren (λ cs, (cs ++ [(id, r)])%list));; ret id
  end.

(** The construct path of a child of [this]. *)
Definition childPath (t : This) (id : string) : string := path t ++ "/" ++ id.

Definition pathOf (id : string) : Ctor string :=
  let! t := getThis in ret (childPath t id).

Definition when (b : bool) (m : Ctor unit) : Ctor unit :=
  if b then m else ret tt.

(** ** The construct *)

(** [FlinkApplication.AllowedLogLevels] *)
Definition AllowedLogLevels : list string :=
  ["DEBUG"; "ERROR"; "INFO"; "WARN"].

(** [FlinkApplication.AllowedMetricLevels] *)
Definition AllowedMetricLevels : list string :=
  ["APPLICATION"; "OPERATOR"; "PARALLELISM"; "TASK"].

Section FlinkApplication.
Context `{Cdk}.

(** *** Attributes of the defined resources *)

Definition logGroupName (id : string) : Ctor string :=
  let! p := pathOf id in ret (refToken p).

Definition logGroupArn (id : string) : Ctor string :=
  let! p := pathOf id in ret (attToken p "Arn").

Definition logStreamName (id : string) : Ctor string :=
  let! p := pathOf id in ret (refToken p).

Definition roleArn (id : string) : Ctor string :=
  let! p := pathOf id in ret (attToken p "Arn").

Definition functionArn (id : string) : Ctor string :=
  let! p := pathOf id in ret (attToken p "Arn").

Definition ref (id : string) : Ctor string :=
  let! p := pathOf id in ret (refToken p).

Definition logicalId (id : string) : Ctor string :=
  let! p := pathOf id in ret (logicalIdToken p).

(** Reading a private field; on an unassigned field the property access
    on [undefined] is a [TypeError]. *)
Definition this_LogGroup : Ctor string :=
  let! t := getThis in
  match LogGroup t with
  | Some lg => ret lg
  | None => throw "TypeError: this.LogGroup is undefined"
  end.

Definition this_Application : Ctor string :=
  let! t := getThis in
  match Application t with
  | Some a => ret a
  | None => throw "TypeError: this.Application is undefined"
  end.

Definition set_LogGroup (lg : string) : Ctor unit :=
  modifyThis (λ t, {| path := path t; children := children t;
                      LogGroup := Some lg; Application := Application t |}).

Definition set_Application (a : string) : Ctor unit :=
  modifyThis (λ t, {| path := path t; children := children t;
                      LogGroup := LogGroup t; Application := Some a |}).

(** [get ApplicationName()] *)
Definition ApplicationName : Ctor string :=
  let! a := this_Application in ref a.

(** [get LogGroupName()] *)
Definition LogGroupName : Ctor string :=
  let! lg := this_LogGroup in logGroupName lg.

(** *** Mutations of objects already in the store *)

Definition attachInlinePolicy (policy : string) (r : Resource) : Resource :=
  match r with
  | RRole ro => RRole {| assumedBy := assumedBy ro;
                         attachedPolicies := (attachedPolicies ro ++ [policy])%list;
                         principalGrants := principalGrants ro |}
  | _ => r
  end.

Definition addRole (role : string) (r : Resource) : Resource :=
  match r with
  | RPolicy p => RPolicy {| statements := statements p;
                            policy_roles := (policy_roles p ++ [role])%list;
                            rules_to_suppress := rules_to_suppress p |}
  | _ => r
  end.

(** [policy.attachToRole(role)] *)
Definition attachToRole (policy role : string) : Ctor unit :=
  modifyThis (withChildren (λ cs,
    alterChild (attachInlinePolicy policy) role (alterChild (addRole role) policy cs))).

(** [role.addToPrincipalPolicy(statement)], through which a grant
    reaches the role: on first use the role creates its default policy,
    [<role>/DefaultPolicy], and attaches it to itself; the grant is then
    added to that policy. *)
Definition addToPrincipalPolicy (role : string) (g : Grant) (r : Resource) : Resource :=
  match r with
  | RRole ro =>
      let defaultPolicy := role ++ "/DefaultPolicy" in
      RRole {| assumedBy := assumedBy ro;
               attachedPolicies :=
                 if includes (attachedPolicies ro) defaultPolicy
                 then attachedPolicies ro
                 else (attachedPolicies ro ++ [defaultPolicy])%list;
               principalGrants := (principalGrants ro ++ [g])%list |}
  | _ => r
  end.

(** [stream.grantRead(role)] *)
Definition grantRead (s : IStream) (role : string) : Ctor unit :=
  modifyThis (withChildren (alterChild (addToPrincipalPolicy role (StreamRead s)) role)).

(** [bucket.grantReadWrite(role)] *)
Definition grantReadWrite (b : IBucket) (role : string) : Ctor unit :=
  modifyThis (withChildren (alterChild (addToPrincipalPolicy role (BucketReadWrite b)) role)).

Definition setRules (rules : list NagRule) (r : Resource) : Resource :=
  match r with
  | RPolicy p => RPolicy {| statements := statements p;
                            policy_roles := policy_roles p;
                            rules_to_suppress := rules |}
  | _ => r
  end.

(** [(policy.node.defaultChild as iam.CfnPolicy).cfnOptions.metadata = ...] *)
Definition set_cfn_nag_metadata (policy : string) (rules : list NagRule) : Ctor unit :=
  modifyThis (withChildren (alterChild (setRules rules) policy)).

(** [new logs.LogGroup(this, id, { retention, removalPolicy })].  The
    log group registers its node and then refuses a retention period
    that is not positive; its node stays behind without a resource. *)
Definition newLogGroup (id : string) (retention : RetentionDays)
    (removalPolicy : RemovalPolicy) : Ctor string :=
  match retention with
  | 0 => newChild id RIncomplete;;
         throw "retentionInDays must be positive, got 0"
  | S _ => newChild id (RLogGroup retention removalPolicy)
  end.

(** [new iam.Policy(this, id, { statements })] *)
Definition newPolicy (id : string) (sts : list PolicyStatement) : Ctor string :=
  newChild id (RPolicy {| statements := sts; policy_roles := []; rules_to_suppress := [] |}).

(** *** [createRole] *)

Definition createRole (bucketArn fileKey : string) : Ctor string :=
  let! role := newChild "AppRole"
    (RRole {| assumedBy := "kinesisanalytics.amazonaws.com";
              attachedPolicies := []; principalGrants := [] |}) in

  let! s3Policy := newPolicy "CodePolicy"
    [ {| resources := [bucketArn ++ "/" ++ fileKey];
         actions := ["s3:GetObjectVersion"; "s3:GetObject"] |} ] in
  attachToRole s3Policy role;;

  let! lg := this_LogGroup in
  let! lgArn := logGroupArn lg in
  let! logsPolicy := newPolicy "LogsPolicy"
    [ {| resources := ["arn:" ++ Aws_PARTITION ++ ":logs:" ++ Aws_REGION ++ ":"
                         ++ Aws_ACCOUNT_ID ++ ":log-group:*"];
         actions := ["logs:DescribeLogGroups"] |};
      {| resources := [lgArn];
         actions := ["logs:DescribeLogStreams"; "logs:PutLogEvents"] |} ] in
  attachToRole logsPolicy role;;

  let! vpcPolicy := newPolicy "VpcPolicy"
    [ {| resources := ["*"];
         actions := ["ec2:CreateNetworkInterface";
                     "ec2:DescribeNetworkInterfaces";
                     "ec2:DescribeVpcs";
                     "ec2:DeleteNetworkInterface";
                     "ec2:DescribeDhcpOptions";
                     "ec2:DescribeSubnets";
                     "ec2:DescribeSecurityGroups"] |};
      {| resources := ["arn:" ++ Aws_PARTITION ++ ":ec2:" ++ Aws_REGION ++ ":"
                         ++ Aws_ACCOUNT_ID ++ ":network-interface/*"];
         actions := ["ec2:CreateNetworkInterfacePermission"] |} ] in
  attachToRole vpcPolicy role;;

  set_cfn_nag_metadata vpcPolicy
    [ {| nag_id := "W12";
         nag_reason := "Actions do not support resource level permissions" |} ];;

  ret role.

(** *** [configureLogging] *)

Definition configureLogging (logStreamName : string) : Ctor unit :=
  let! lgName := LogGroupName in
  let logStreamArn :=
    "arn:" ++ Aws_PARTITION ++ ":logs:" ++ Aws_REGION ++ ":" ++ Aws_ACCOUNT_ID
      ++ ":log-group:" ++ lgName ++ ":log-stream:" ++ logStreamName in
  let! appName := ApplicationName in
  newChild "Logging" (RCfnApplicationCloudWatchLoggingOptionV2 appName logStreamArn);;
  ret tt.

(** *** [createCustomResource] *)

(** [x ?? []] *)
Definition orEmpty (x : option (list string)) : list string :=
  match x with
  | Some xs => xs
  | None => []
  end.

Definition createCustomResource (subnets securityGroups : option (list string)) : Ctor unit :=
  let! appName := ApplicationName in
  let vpcConfigDocument :=
    {| doc_statements :=
         [ {| resources := ["arn:" ++ Aws_PARTITION ++ ":kinesisanalytics:" ++ Aws_REGION
                              ++ ":" ++ Aws_ACCOUNT_ID ++ ":application/" ++ appName];
              actions := ["kinesisanalytics:AddApplicationVpcConfiguration";
                          "kinesisanalytics:DeleteApplicationVpcConfiguration";
                          "kinesisanalytics:DescribeApplication"] |} ] |} in

  let! customResouceRole := newChild "CustomResourceRole"
    (RExecutionRole "VpcConfigPolicy" vpcConfigDocument) in

  let! customResourceFunction := newChild "CustomResource"
    (RFunction {| fn_runtime := "PYTHON_3_8";
                  fn_handler := "lambda_function.handler";
                  fn_role := customResouceRole;
                  fn_code := "lambda/kda-vpc-config";
                  fn_timeout_seconds := 30 |}) in

  let! fnArn := functionArn customResourceFunction in
  let! appName' := ApplicationName in
  newChild "VpcConfiguration"
    (RCustomResource
       {| serviceToken := fnArn;
          properties :=
            <["SecurityGroupIds" := JArray (orEmpty securityGroups)]>
              (<["SubnetIds" := JArray (orEmpty subnets)]>
                 (<["ApplicationName" := JString appName']> ∅));
          resourceType := "Custom::VpcConfiguration" |});;
  ret tt.

(** *** The constructor *)

(** Lines 65 to 71: the two verbosity checks. *)
Definition validateVerbosity (props : FlinkApplicationProps) : Ctor unit :=
  when (negb (isUnresolved (logLevel props))
          && negb (includes AllowedLogLevels (logLevel props)))
       (throw ("Unknown log level: " ++ logLevel props));;
  when (negb (isUnresolved (metricsLevel props))
          && negb (includes AllowedMetricLevels (metricsLevel props)))
       (throw ("Unknown metrics level: " ++ metricsLevel props)).

(** Lines 73 to 140: everything the constructor defines.  Of the
    library's constructors only the log group's own check on its
    retention period is modelled; the others are taken to accept what
    they are given. *)
Definition defineResources (props : FlinkApplicationProps) : Ctor unit :=
  let! lg := newLogGroup "LogGroup" (logsRetentionDays props) RETAIN in
  set_LogGroup lg;;

  let! lg' := this_LogGroup in
  let! logStream := newChild "LogStream" (RLogStream lg' RETAIN) in

  let! role := createRole (codeBucketArn props) (codeFileKey props) in
  grantRead (inputStream props) role;;
  grantReadWrite (outputBucket props) role;;

  let! autoScalingCondition := newChild "EnableAutoScaling"
    (RCfnCondition (FnEquals (enableAutoScaling props) "true")) in

  let! snapshotCondition := newChild "EnableSnapshots"
    (RCfnCondition (FnEquals (enableSnapshots props) "true")) in

  let! rArn := roleArn role in
  let! autoScalingId := logicalId autoScalingCondition in
  let! snapshotId := logicalId snapshotCondition in
  let! app := newChild "Application"
    (RCfnApplicationV2
       {| runtimeEnvironment := "FLINK-1_8";
          serviceExecutionRole := rArn;
          s3ContentLocation_bucketArn := codeBucketArn props;
          s3ContentLocation_fileKey := codeFileKey props;
          codeContentType := "ZIPFILE";
          propertyGroupId := "FlinkApplicationProperties";
          propertyMap := [ ("InputStreamName", streamName (inputStream props));
                           ("OutputBucketName", bucketName (outputBucket props));
                           ("Region", Aws_REGION) ];
          monitoring_configurationType := "CUSTOM";
          monitoring_logLevel := logLevel props;
          monitoring_metricsLevel := metricsLevel props;
          parallelism_configurationType := "CUSTOM";
          autoScalingEnabled := FnIf autoScalingId true false;
          checkpoint_configurationType := "DEFAULT";
          snapshotsEnabled := FnIf snapshotId true false |}) in
  set_Application app;;

  let! lsName := logStreamName logStream in
  configureLogging lsName;;

  createCustomResource (subnetIds props) (securityGroupIds props).

Definition constructor (props : FlinkApplicationProps) : Ctor unit :=
  validateVerbosity props;;
  defineResources props.

(** [new FlinkApplication(scope, id, props)]: how the constructor
    completes, and the node it leaves behind. *)
Definition FlinkApplication (scope id : string) (props : FlinkApplicationProps)
    : Completion unit * This :=
  constructor props (newConstruct scope id).

End FlinkApplication.

(** ** Reading the finished construct *)

(** An entry of the policy set of a role: a statement of an attached
    policy, or a grant a resource added through its own grant method. *)
Inductive GrantEntry :=
| Statement (s : PolicyStatement)
| Delegated (g : Grant).

Definition policyStatements (t : This) (policy : string) : list PolicyStatement :=
  match lookupChild policy (children t) with
  | Some (RPolicy p) => statements p
  | _ => []
  end.

(** Everything attached to the role [role]: the statements of the
    attached policies this construct defines, in attachment order, then
    the delegated grants, which the role's default policy holds. *)
Definition policySet (t : This) (role : string) : list GrantEntry :=
  match lookupChild role (children t) with
  | Some (RRole r) =>
      (flat_map (λ p, map Statement (policyStatements t p)) (attachedPolicies r)
         ++ map Delegated (principalGrants r))%list
  | _ => []
  end.

(** Modelled from the spec: [ExecutionRole] (lib/lambda-role-cloudwatch)
    is not among the sources.  The role it builds for the callback
    function is granted the inline policy document it is handed under the
    given name; the spec names no other network-attachment permission of
    that role. *)
Definition ExecutionRole_Role_inlinePolicies (r : Resource) : list (string * PolicyDocument) :=
  match r with
  | RExecutionRole name doc => [(name, doc)]
  | _ => []
  end.

(** The statements carried by the role of the lambda function [fn]. *)
Definition functionRoleStatements (t : This) (fn : string) : list PolicyStatement :=
  match lookupChild fn (children t) with
  | Some (RFunction f) =>
      match lookupChild (fn_role f) (children t) with
      | Some r => flat_map (λ nd, doc_statements nd.2) (ExecutionRole_Role_inlinePolicies r)
      | None => []
      end
  | _ => []
  end.

Definition customResourceProps (t : This) (id : string) : option CustomResourceProps :=
  match lookupChild id (children t) with
  | Some (RCustomResource p) => Some p
  | _ => None
  end.

Definition applicationProps (t : This) : option CfnApplicationV2Props :=
  match Application t with
  | Some a =>
      match lookupChild a (children t) with
      | Some (RCfnApplicationV2 p) => Some p
      | _ => None
      end
  | None => None
  end.
(** ** Outcomes of the constructor *)

Section Outcome.
Context `{Cdk}.

(** The two conditions under which lines 65 to 71 throw. *)
Definition badLogLevel (props : FlinkApplicationProps) : bool :=
  negb (isUnresolved (logLevel props)) && negb (includes AllowedLogLevels (logLevel props)).

Definition badMetricsLevel (props : FlinkApplicationProps) : bool :=
  negb (isUnresolved (metricsLevel props))
    && negb (includes AllowedMetricLevels (metricsLevel props)).

(** The node a construction leaves behind when validation passes and the
    resources are defined. *)
Definition built (scope id : string) (props : FlinkApplicationProps) : This :=
  (defineResources props (newConstruct scope id)).2.

(** The reading of "construction throws if and only if a verbosity input
    is concretely known and outside its allowed set". *)
Definition throws_iff_known_verbosity_not_allowed
    (scope id : string) (props : FlinkApplicationProps) : Prop :=
  (∃ msg t', FlinkApplication scope id props = (Throw msg, t')) ↔
  (isUnresolved (logLevel props) = false
     ∧ logLevel props ∉ ["DEBUG"; "ERROR"; "INFO"; "WARN"])
  ∨ (isUnresolved (metricsLevel props) = false
     ∧ metricsLevel props ∉ ["APPLICATION"; "OPERATOR"; "PARALLELISM"; "TASK"]).

(** The reading of "every validation failure includes the offending
    value and the allowed set": the value, and every member of the
    allowed set of the input that failed, occur in the message. *)
Definition failure_lists_value_and_allowed_set
    (scope id : string) (props : FlinkApplicationProps) : Prop :=
  ∀ msg t', FlinkApplication scope id props = (Throw msg, t') →
    if badLogLevel props
    then includesStr (logLevel props) msg = true
         ∧ Forall (λ a, includesStr a msg = true) AllowedLogLevels
    else includesStr (metricsLevel props) msg = true
         ∧ Forall (λ a, includesStr a msg = true) AllowedMetricLevels.

End Outcome.

(** ** The templating engine's reading of the deferred toggles

    The engine that processes the synthesized document is outside the
    repository.  What the construct hands it are [Fn::Equals] conditions,
    registered under their logical ids, and [Fn::If] values naming a
    condition; the definitions below give these their documented
    meaning, so that "once resolved" can be stated. *)

Section Resolve.
Context `{Cdk}.

(** The value a string has when the document is processed: a concretely
    known string stands for itself, a deferred one takes the value [ρ]
    gives it. *)
Definition resolveString (ρ : string → string) (s : string) : string :=
  if isUnresolved s then ρ s else s.

Definition evalCondition (ρ : string → string) (e : CfnConditionExpression) : bool :=
  match e with
  | FnEquals l r => String.eqb (resolveString ρ l) (resolveString ρ r)
  end.

(** The [Conditions] section of the document: every [CfnCondition]
    defined under the construct, under its logical id. *)
Definition templateConditions (t : This) : gmap string CfnConditionExpression :=
  foldl (λ m kr, match kr.2 with
                 | RCfnCondition e => <[logicalIdToken (childPath t kr.1) := e]> m
                 | _ => m
                 end) ∅ (children t).

Definition resolveBool (ρ : string → string) (t : This) (v : BoolOrResolvable) : option bool :=
  match v with
  | BoolLit b => Some b
  | FnIf c vt vf =>
      match templateConditions t !! c with
      | Some e => Some (if evalCondition ρ e then vt else vf)
      | None => None
      end
  end.

End Resolve.

(** ** The network-attachment request and its reconciler *)

(** The request envelope carried by the custom resource's properties. *)
Record NetworkAttachmentRequest := {
  req_ApplicationName : string;
  req_SubnetIds : list string;
  req_SecurityGroupIds : list string
}.

Definition requestOf (p : CustomResourceProps) : option NetworkAttachmentRequest :=
  match properties p !! "ApplicationName",
        properties p !! "SubnetIds",
        properties p !! "SecurityGroupIds" with
  | Some (JString a), Some (JArray s), Some (JArray g) =>
      Some {| req_ApplicationName := a; req_SubnetIds := s; req_SecurityGroupIds := g |}
  | _, _, _ => None
  end.

(** The lifecycle events of the synthetic resource. *)
Inductive RequestType := Create | Update | Delete.

(** Modelled from the spec: the callback function (lambda/kda-vpc-config)
    is not among the sources.  The request is a desired-state request:
    after a create or an update the application's network attachment is
    the pair of lists the request carries (two empty lists meaning no
    attachment), after a delete the application has none.  The state is
    the attachment of each application, by application id. *)
Definition reconcile (ev : RequestType) (req : NetworkAttachmentRequest)
    (st : gmap string (list string * list string)) : gmap string (list string * list string) :=
  match ev with
  | Create | Update =>
      <[req_ApplicationName req := (req_SubnetIds req, req_SecurityGroupIds req)]> st
  | Delete => delete (req_ApplicationName req) st
  end.

(** ** A concrete setting for examples

    Tokens are rendered the way the CDK encodes them in strings, with the
    marker [${Token[]; a string is deferred when it carries the marker. *)

Definition exampleCdk : Cdk := {|
  isUnresolved := includesStr "${Token[";
  Aws_PARTITION := "${Token[AWS.Partition.1]}";
  Aws_REGION := "${Token[AWS.Region.2]}";
  Aws_ACCOUNT_ID := "${Token[AWS.AccountId.3]}";
  refToken p := "${Token[Ref:" ++ p ++ "]}";
  attToken p a := "${Token[GetAtt:" ++ p ++ "." ++ a ++ "]}";
  logicalIdToken p := "${Token[LogicalId:" ++ p ++ "]}"
|}.

(** The end-to-end scenario of the specification. *)
Definition exampleProps : FlinkApplicationProps := {|
  inputStream := {| streamName := "input-stream" |};
  outputBucket := {| bucketName := "output-bucket" |};
  logsRetentionDays := 7;
  logLevel := "INFO";
  metricsLevel := "APPLICATION";
  codeBucketArn := "arn:aws:s3:::code-bucket";
  codeFileKey := "flink/app.zip";
  enableSnapshots := "false";
  enableAutoScaling := "true";
  subnetIds := Some [];
  securityGroupIds := Some []
|}.

Definition withLogLevel (l : string) (p : FlinkApplicationProps) : FlinkApplicationProps := {|
  inputStream := inputStream p;
  outputBucket := outputBucket p;
  logsRetentionDays := logsRetentionDays p;
  logLevel := l;
  metricsLevel := metricsLevel p;
  codeBucketArn := codeBucketArn p;
  codeFileKey := codeFileKey p;
  enableSnapshots := enableSnapshots p;
  enableAutoScaling := enableAutoScaling p;
  subnetIds := subnetIds p;
  securityGroupIds := securityGroupIds p
|}.

(** The same placement, with both optional lists left out. *)
Definition withoutPlacement (p : FlinkApplicationProps) : FlinkApplicationProps := {|
  inputStream := inputStream p;
  outputBucket := outputBucket p;
  logsRetentionDays := logsRetentionDays p;
  logLevel := logLevel p;
  metricsLevel := metricsLevel p;
  codeBucketArn := codeBucketArn p;
  codeFileKey := codeFileKey p;
  enableSnapshots := enableSnapshots p;
  enableAutoScaling := enableAutoScaling p;
  subnetIds := None;
  securityGroupIds := None
|}.

Definition withRetention (days : RetentionDays) (p : FlinkApplicationProps)
    : FlinkApplicationProps := {|
  inputStream := inputStream p;
  outputBucket := outputBucket p;
  logsRetentionDays := days;
  logLevel := logLevel p;
  metricsLevel := metricsLevel p;
  codeBucketArn := codeBucketArn p;
  codeFileKey := codeFileKey p;
  enableSnapshots := enableSnapshots p;
  enableAutoScaling := enableAutoScaling p;
  subnetIds := subnetIds p;
  securityGroupIds := securityGroupIds p
|}.

Definition withMetricsLevel (m : string) (p : FlinkApplicationProps) : FlinkApplicationProps := {|
  inputStream := inputStream p;
  outputBucket := outputBucket p;
  logsRetentionDays := logsRetentionDays p;
  logLevel := logLevel p;
  metricsLevel := m;
  codeBucketArn := codeBucketArn p;
  codeFileKey := codeFileKey p;
  enableSnapshots := enableSnapshots p;
  enableAutoScaling := enableAutoScaling p;
  subnetIds := subnetIds p;
  securityGroupIds := securityGroupIds p
|}.

(** ** Further readings of the finished construct *)

(** The construct ids of the [iam.Policy] children, in definition order. *)
Definition policyIds (t : This) : list string :=
  flat_map (λ kr, match kr.2 with RPolicy _ => [kr.1] | _ => [] end) (children t).

(** The policies whose [CfnPolicy] carries [cfn_nag] suppressions, with
    the rules they carry. *)
Definition suppressedPolicies (t : This) : list (string * list NagRule) :=
  flat_map (λ kr, match kr.2 with
                  | RPolicy p =>
                      match rules_to_suppress p with
                      | [] => []
                      | rs => [(kr.1, rs)]
                      end
                  | _ => []
                  end) (children t).

Definition policyRoles (t : This) (policy : string) : list string :=
  match lookupChild policy (children t) with
  | Some (RPolicy p) => policy_roles p
  | _ => []
  end.

(** A node in the middle of construction: the log group is defined and
    assigned, the application is assigned. *)
Definition exampleNode : This := {|
  path := "Stack/Flink";
  children := [("LogGroup", RLogGroup 7 RETAIN)];
  LogGroup := Some "LogGroup";
  Application := Some "Application"
|}.

(** The same node before either field is assigned. *)
Definition exampleBareNode : This := {|
  path := "Stack/Flink";
  children := [("LogGroup", RLogGroup 7 RETAIN)];
  LogGroup := None;
  Application := None
|}.

(** Closing a goal, or a conjunction of goals, by running the embedding. *)
Ltac run := vm_compute; reflexivity.
Ltac runs := repeat match goal with |- _ ∧ _ => split end; run.

(** Running a method on a node whose earlier children are not known:
    unfold one layer of the monad, then compute on the children the
    method has added itself. *)
Ltac step :=
  cbv [createCustomResource configureLogging createRole newPolicy bind
       ApplicationName LogGroupName this_Application this_LogGroup
       getThis ref pathOf ret newChild modifyThis withChildren throw
       functionArn logGroupName logGroupArn childPath attachToRole
       set_cfn_nag_metadata];
  cbn [Application children path LogGroup].

Ltac on_new :=
  repeat match goal with
  | |- context [lookupChild ?i (?a :: ?b)] =>
      let v := eval vm_compute in (lookupChild i (a :: b)) in
      change (lookupChild i (a :: b)) with v
  | |- context [alterChild ?f ?i (?a :: ?b)] =>
      let v := eval vm_compute in (alterChild f i (a :: b)) in
      change (alterChild f i (a :: b)) with v
  end.

(** ** Facts about strings and arrays *)

Lemma includes_elem_of (xs : list string) (x : string) :
  includes xs x = true ↔ x ∈ xs.
Proof.
  induction xs as [|y ys IH]; simpl.
  - split; [discriminate | intros Hx; inversion Hx].
  - rewrite orb_true_iff, IH, elem_of_cons, String.eqb_eq. intuition congruence.
Qed.

Lemma includes_false_not_elem_of (xs : list string) (x : string) :
  includes xs x = false ↔ x ∉ xs.
Proof.
  rewrite <- includes_elem_of. destruct (includes xs x); intuition congruence.
Qed.

Lemma isPrefixOf_refl (s : string) : isPrefixOf s s = true.
Proof.
  induction s as [|a s IH]; simpl; [done|]. by rewrite Ascii.eqb_refl.
Qed.

Lemma includesStr_refl (s : string) : includesStr s s = true.
Proof.
  destruct s; simpl; [done|]. by rewrite Ascii.eqb_refl, isPrefixOf_refl.
Qed.

Lemma includesStr_append_r (sub p s : string) :
  includesStr sub s = true → includesStr sub (p ++ s) = true.
Proof.
  intros Hs. induction p as [|a p IH]; simpl; [done|].
  rewrite IH. apply orb_true_r.
Qed.

Lemma includesStr_suffix (p s : string) : includesStr s (p ++ s) = true.
Proof. apply includesStr_append_r, includesStr_refl. Qed.

Lemma length_append (s1 s2 : string) :
  String.length (s1 ++ s2) = String.length s1 + String.length s2.
Proof. induction s1 as [|a s1 IH]; simpl; [done|]. by rewrite IH. Qed.

Lemma append_nonempty_ne (s k : string) : k ≠ "" → s ++ k ≠ s.
Proof.
  intros Hk Heq. apply (f_equal String.length) in Heq.
  rewrite length_append in Heq. destruct k; [done|]. simpl in Heq. lia.
Qed.

(** ** The constructor, step by step *)

Lemma validateVerbosity_run `{Cdk} (props : FlinkApplicationProps) (t : This) :
  validateVerbosity props t =
    if badLogLevel props then (Throw ("Unknown log level: " ++ logLevel props), t)
    else if badMetricsLevel props
         then (Throw ("Unknown metrics level: " ++ metricsLevel props), t)
         else (Normal tt, t).
Proof.
  unfold validateVerbosity, badLogLevel, badMetricsLevel, bind, when, throw, ret.
  destruct (negb (isUnresolved (logLevel props)) && _); [done|].
  by destruct (negb (isUnresolved (metricsLevel props)) && _).
Qed.

(** After validation the constructor goes on to define its resources. *)
Lemma FlinkApplication_run `{Cdk} (scope id : string) (props : FlinkApplicationProps) :
  FlinkApplication scope id props =
    if badLogLevel props
    then (Throw ("Unknown log level: " ++ logLevel props), newConstruct scope id)
    else if badMetricsLevel props
         then (Throw ("Unknown metrics level: " ++ metricsLevel props), newConstruct scope id)
         else defineResources props (newConstruct scope id).
Proof.
  unfold FlinkApplication, constructor, bind. rewrite validateVerbosity_run.
  destruct (badLogLevel props); [done|]. by destruct (badMetricsLevel props).
Qed.

(** A construction that completes has passed both checks and was given
    a positive retention period; the node it leaves is the one the
    resource definitions build. *)
Lemma FlinkApplication_success `{Cdk} (scope id : string) (props : FlinkApplicationProps)
    (t' : This) :
  FlinkApplication scope id props = (Normal tt, t') →
  badLogLevel props = false ∧ badMetricsLevel props = false
  ∧ ∃ n, logsRetentionDays props = S n
         ∧ t' = built scope id (withRetention (S n) props).
Proof.
  rewrite FlinkApplication_run.
  destruct (badLogLevel props); [done|]. destruct (badMetricsLevel props); [done|].
  intros Hrun. split; [done|]. split; [done|].
  destruct props as [i o [|n] l m b k s a sn sg].
  - vm_compute in Hrun. discriminate Hrun.
  - exists n. split; [done|].
    apply (f_equal snd) in Hrun. symmetry. exact Hrun.
Qed.

(** A construction given a bad verbosity value fails in validation. *)
Lemma FlinkApplication_validation_failure `{Cdk} (scope id : string)
    (props : FlinkApplicationProps) (msg : string) (t' : This) :
  badLogLevel props = true ∨ badMetricsLevel props = true →
  FlinkApplication scope id props = (Throw msg, t') →
  t' = newConstruct scope id ∧
  ((badLogLevel props = true ∧ msg = ("Unknown log level: " ++ logLevel props))
   ∨ (badLogLevel props = false ∧ badMetricsLevel props = true
      ∧ msg = ("Unknown metrics level: " ++ metricsLevel props))).
Proof.
  intros Hbad. rewrite FlinkApplication_run.
  destruct (badLogLevel props); [intros [= <- <-]; auto|].
  destruct (badMetricsLevel props); [intros [= <- <-]; auto 6|].
  by destruct Hbad.
Qed.

Lemma badLogLevel_true `{Cdk} (props : FlinkApplicationProps) :
  badLogLevel props = true ↔
  isUnresolved (logLevel props) = false ∧ logLevel props ∉ AllowedLogLevels.
Proof.
  unfold badLogLevel.
  rewrite andb_true_iff, !negb_true_iff, includes_false_not_elem_of. done.
Qed.

Lemma badMetricsLevel_true `{Cdk} (props : FlinkApplicationProps) :
  badMetricsLevel props = true ↔
  isUnresolved (metricsLevel props) = false ∧ metricsLevel props ∉ AllowedMetricLevels.
Proof.
  unfold badMetricsLevel.
  rewrite andb_true_iff, !negb_true_iff, includes_false_not_elem_of. done.
Qed.

(** ** Validation *)

(** C1, as stated, fails: with both levels allowed and a retention
    period of zero the construction throws all the same, when the log
    group refuses the retention period. *)
Lemma construction_also_throws_on_refused_retention :
  ¬ throws_iff_known_verbosity_not_allowed (H := exampleCdk) "Stack" "Flink"
      (withRetention 0 exampleProps).
Proof.
  intros [Honly _].
  assert (Hrun : FlinkApplication (H := exampleCdk) "Stack" "Flink"
                   (withRetention 0 exampleProps)
                 = (Throw "retentionInDays must be positive, got 0",
                    {| path := "Stack/Flink"; children := [("LogGroup", RIncomplete)];
                       LogGroup := None; Application := None |}))
    by (vm_compute; reflexivity).
  destruct Honly as [[_ Hout]|[_ Hout]]; [by eauto | |];
    apply Hout, includes_elem_of; vm_compute; reflexivity.
Qed.

(** C1, amended. The verbosity validation of the constructor throws
    exactly when the log level, or the metrics level, is concretely
    known (not a deferred token) and outside its allowed set,
    [{DEBUG, ERROR, INFO, WARN}] and
    [{APPLICATION, OPERATOR, PARALLELISM, TASK}]; construction then
    fails with the validation message.  For values inside their sets and
    for deferred values validation passes, and the outcome of the
    construction is that of defining its resources. *)
Theorem verbosity_validation_throws_iff_known_level_not_allowed `{Cdk}
    (scope id : string) (props : FlinkApplicationProps) :
  ((∃ msg t', validateVerbosity props (newConstruct scope id) = (Throw msg, t')) ↔
   (isUnresolved (logLevel props) = false
      ∧ logLevel props ∉ ["DEBUG"; "ERROR"; "INFO"; "WARN"])
   ∨ (isUnresolved (metricsLevel props) = false
      ∧ metricsLevel props ∉ ["APPLICATION"; "OPERATOR"; "PARALLELISM"; "TASK"]))
  ∧ ((isUnresolved (logLevel props) = false ∧ logLevel props ∉ AllowedLogLevels)
     ∨ (isUnresolved (metricsLevel props) = false
        ∧ metricsLevel props ∉ AllowedMetricLevels) →
     ∃ msg, FlinkApplication scope id props = (Throw msg, newConstruct scope id)
            ∧ (msg = ("Unknown log level: " ++ logLevel props)
               ∨ msg = ("Unknown metrics level: " ++ metricsLevel props)))
  ∧ ((isUnresolved (logLevel props) = true ∨ logLevel props ∈ AllowedLogLevels)
     ∧ (isUnresolved (metricsLevel props) = true
        ∨ metricsLevel props ∈ AllowedMetricLevels) →
     validateVerbosity props (newConstruct scope id) = (Normal tt, newConstruct scope id)
     ∧ FlinkApplication scope id props = defineResources props (newConstruct scope id)).
Proof.
  change ["DEBUG"; "ERROR"; "INFO"; "WARN"] with AllowedLogLevels.
  change ["APPLICATION"; "OPERATOR"; "PARALLELISM"; "TASK"] with AllowedMetricLevels.
  rewrite <- badLogLevel_true, <- badMetricsLevel_true.
  rewrite FlinkApplication_run, validateVerbosity_run.
  split; [split|split].
  - intros (msg & t' & Hrun).
    destruct (badLogLevel props); [auto|]. destruct (badMetricsLevel props); [auto|done].
  - intros [-> | Hm]; [eauto|]. rewrite Hm. destruct (badLogLevel props); eauto.
  - intros [-> | Hm]; [eauto|]. rewrite Hm. destruct (badLogLevel props); eauto.
  - intros [Hl Hm].
    assert (badLogLevel props = false) as ->.
    { destruct (badLogLevel props) eqn:Hb; [|done].
      apply badLogLevel_true in Hb as [Hk Hn]. destruct Hl; [congruence|done]. }
    assert (badMetricsLevel props = false) as ->.
    { destruct (badMetricsLevel props) eqn:Hb; [|done].
      apply badMetricsLevel_true in Hb as [Hk Hn]. destruct Hm; [congruence|done]. }
    done.
Qed.

Lemma verbosity_validation_witness :
  ((isUnresolved (Cdk := exampleCdk) "INFO" = true ∨ "INFO" ∈ AllowedLogLevels)
   ∧ (isUnresolved (Cdk := exampleCdk) "APPLICATION" = true
      ∨ "APPLICATION" ∈ AllowedMetricLevels))
  ∧ validateVerbosity (H := exampleCdk) exampleProps (newConstruct "Stack" "Flink")
    = (Normal tt, newConstruct "Stack" "Flink")
  ∧ FlinkApplication (H := exampleCdk) "Stack" "Flink" exampleProps
    = defineResources (H := exampleCdk) exampleProps (newConstruct "Stack" "Flink").
Proof.
  assert (Hok : (isUnresolved (Cdk := exampleCdk) "INFO" = true ∨ "INFO" ∈ AllowedLogLevels)
                ∧ (isUnresolved (Cdk := exampleCdk) "APPLICATION" = true
                   ∨ "APPLICATION" ∈ AllowedMetricLevels)).
  { split; right; apply includes_elem_of; vm_compute; reflexivity. }
  split; [exact Hok|].
  apply (verbosity_validation_throws_iff_known_level_not_allowed (H := exampleCdk)
           "Stack" "Flink" exampleProps). exact Hok.
Defined.

(** C3, as stated, fails: for the log level [TRACE] the message is
    [Unknown log level: TRACE], in which [DEBUG] does not occur. *)
Lemma failure_message_omits_allowed_set :
  ¬ failure_lists_value_and_allowed_set (H := exampleCdk) "Stack" "Flink"
      (withLogLevel "TRACE" exampleProps).
Proof.
  intros Hclaim.
  specialize (Hclaim "Unknown log level: TRACE" (newConstruct "Stack" "Flink") eq_refl).
  change (badLogLevel (withLogLevel "TRACE" exampleProps)) with true in Hclaim.
  destruct Hclaim as [_ Hall]. apply Forall_cons in Hall as [Hdebug _].
  vm_compute in Hdebug. discriminate.
Qed.

(** C3, amended. Every validation failure raised at construction time,
    that is every failure of a construction given a concretely known
    verbosity value outside its allowed set, has the message
    [Unknown log level: ] or [Unknown metrics level: ] followed by the
    offending value of that input, so the message names the input and
    includes the offending value. *)
Theorem failure_message_names_input_and_value `{Cdk}
    (scope id : string) (props : FlinkApplicationProps) (msg : string) (t' : This) :
  (isUnresolved (logLevel props) = false ∧ logLevel props ∉ AllowedLogLevels)
  ∨ (isUnresolved (metricsLevel props) = false
     ∧ metricsLevel props ∉ AllowedMetricLevels) →
  FlinkApplication scope id props = (Throw msg, t') →
  (isUnresolved (logLevel props) = false ∧ (logLevel props ∉ AllowedLogLevels)
     ∧ msg = ("Unknown log level: " ++ logLevel props)
     ∧ includesStr (logLevel props) msg = true)
  ∨ (isUnresolved (metricsLevel props) = false ∧ (metricsLevel props ∉ AllowedMetricLevels)
     ∧ msg = ("Unknown metrics level: " ++ metricsLevel props)
     ∧ includesStr (metricsLevel props) msg = true).
Proof.
  rewrite <- badLogLevel_true, <- badMetricsLevel_true.
  intros Hbad Hrun. apply FlinkApplication_validation_failure in Hrun; [|done].
  destruct Hrun as [_ [[Hl ->]|(_ & Hm & ->)]].
  - left. apply badLogLevel_true in Hl as [? ?].
    repeat split; try done. apply includesStr_suffix.
  - right. apply badMetricsLevel_true in Hm as [? ?].
    repeat split; try done. apply includesStr_suffix.
Qed.

Lemma failure_message_names_input_and_value_witness :
  ((isUnresolved (Cdk := exampleCdk) "TRACE" = false ∧ "TRACE" ∉ AllowedLogLevels)
   ∨ (isUnresolved (Cdk := exampleCdk) "APPLICATION" = false
      ∧ "APPLICATION" ∉ AllowedMetricLevels))
  ∧ FlinkApplication (H := exampleCdk) "Stack" "Flink" (withLogLevel "TRACE" exampleProps)
    = (Throw "Unknown log level: TRACE", newConstruct "Stack" "Flink")
  ∧ ((isUnresolved (Cdk := exampleCdk) "TRACE" = false ∧ ("TRACE" ∉ AllowedLogLevels)
        ∧ "Unknown log level: TRACE" = ("Unknown log level: " ++ "TRACE")
        ∧ includesStr "TRACE" "Unknown log level: TRACE" = true)
     ∨ (isUnresolved (Cdk := exampleCdk) "APPLICATION" = false
        ∧ ("APPLICATION" ∉ AllowedMetricLevels)
        ∧ "Unknown log level: TRACE" = ("Unknown metrics level: " ++ "APPLICATION")
        ∧ includesStr "APPLICATION" "Unknown log level: TRACE" = true)).
Proof.
  assert (Hbad : (isUnresolved (Cdk := exampleCdk) "TRACE" = false
                  ∧ "TRACE" ∉ AllowedLogLevels)
                 ∨ (isUnresolved (Cdk := exampleCdk) "APPLICATION" = false
                    ∧ "APPLICATION" ∉ AllowedMetricLevels)).
  { left. split; [vm_compute; reflexivity|].
    apply includes_false_not_elem_of. vm_compute; reflexivity. }
  split; [exact Hbad|]. split; [vm_compute; reflexivity|].
  apply (failure_message_names_input_and_value (H := exampleCdk) "Stack" "Flink"
           (withLogLevel "TRACE" exampleProps) _ (newConstruct "Stack" "Flink"));
    [exact Hbad | vm_compute; reflexivity].
Defined.

(** C8. When construction fails because a concretely known verbosity
    value is invalid, the failure comes before anything is defined: the
    construct is left with no child (no log group, log stream, role,
    policy, condition, application, logging option, function or custom
    resource) and with both of its fields unassigned. *)
Theorem validation_failure_defines_nothing `{Cdk}
    (scope id : string) (props : FlinkApplicationProps) (msg : string) (t' : This) :
  (isUnresolved (logLevel props) = false ∧ logLevel props ∉ AllowedLogLevels)
  ∨ (isUnresolved (metricsLevel props) = false
     ∧ metricsLevel props ∉ AllowedMetricLevels) →
  FlinkApplication scope id props = (Throw msg, t') →
  children t' = [] ∧ LogGroup t' = None ∧ Application t' = None.
Proof.
  rewrite <- badLogLevel_true, <- badMetricsLevel_true.
  intros Hbad Hrun. apply FlinkApplication_validation_failure in Hrun as [-> _]; done.
Qed.

Lemma validation_failure_defines_nothing_witness :
  ((isUnresolved (Cdk := exampleCdk) "TRACE" = false ∧ "TRACE" ∉ AllowedLogLevels)
   ∨ (isUnresolved (Cdk := exampleCdk) "APPLICATION" = false
      ∧ "APPLICATION" ∉ AllowedMetricLevels))
  ∧ FlinkApplication (H := exampleCdk) "Stack" "Flink" (withLogLevel "TRACE" exampleProps)
    = (Throw "Unknown log level: TRACE", newConstruct "Stack" "Flink")
  ∧ children (newConstruct "Stack" "Flink") = []
  ∧ LogGroup (newConstruct "Stack" "Flink") = None
  ∧ Application (newConstruct "Stack" "Flink") = None.
Proof.
  assert (Hbad : (isUnresolved (Cdk := exampleCdk) "TRACE" = false
                  ∧ "TRACE" ∉ AllowedLogLevels)
                 ∨ (isUnresolved (Cdk := exampleCdk) "APPLICATION" = false
                    ∧ "APPLICATION" ∉ AllowedMetricLevels)).
  { left. split; [vm_compute; reflexivity|].
    apply includes_false_not_elem_of. vm_compute; reflexivity. }
  split; [exact Hbad|]. split; [vm_compute; reflexivity|].
  apply (validation_failure_defines_nothing (H := exampleCdk) "Stack" "Flink"
           (withLogLevel "TRACE" exampleProps) "Unknown log level: TRACE");
    [exact Hbad | vm_compute; reflexivity].
Defined.

(** ** The execution identity's policy set *)

(** What [createRole] and the two delegated grants leave on the role, in
    the order they were attached. *)
Lemma built_policySet `{Cdk} (scope id : string) (props : FlinkApplicationProps) (n : nat) :
  policySet (built scope id (withRetention (S n) props)) "AppRole" =
    [ Statement {| resources := [codeBucketArn props ++ "/" ++ codeFileKey props];
                   actions := ["s3:GetObjectVersion"; "s3:GetObject"] |};
      Statement {| resources := ["arn:" ++ Aws_PARTITION ++ ":logs:" ++ Aws_REGION ++ ":"
                                   ++ Aws_ACCOUNT_ID ++ ":log-group:*"];
                   actions := ["logs:DescribeLogGroups"] |};
      Statement {| resources := [attToken (childPath (newConstruct scope id) "LogGroup") "Arn"];
                   actions := ["logs:DescribeLogStreams"; "logs:PutLogEvents"] |};
      Statement {| resources := ["*"];
                   actions := ["ec2:CreateNetworkInterface";
                               "ec2:DescribeNetworkInterfaces";
                               "ec2:DescribeVpcs";
                               "ec2:DeleteNetworkInterface";
                               "ec2:DescribeDhcpOptions";
                               "ec2:DescribeSubnets";
                               "ec2:DescribeSecurityGroups"] |};
      Statement {| resources := ["arn:" ++ Aws_PARTITION ++ ":ec2:" ++ Aws_REGION ++ ":"
                                   ++ Aws_ACCOUNT_ID ++ ":network-interface/*"];
                   actions := ["ec2:CreateNetworkInterfacePermission"] |};
      Delegated (StreamRead (inputStream props));
      Delegated (BucketReadWrite (outputBucket props)) ].
Proof. reflexivity. Qed.

Lemma built_children_ids `{Cdk} (scope id : string) (props : FlinkApplicationProps) (n : nat) :
  (children (built scope id (withRetention (S n) props))).*1 =
    ["LogGroup"; "LogStream"; "AppRole"; "CodePolicy"; "LogsPolicy"; "VpcPolicy";
     "EnableAutoScaling"; "EnableSnapshots"; "Application"; "Logging";
     "CustomResourceRole"; "CustomResource"; "VpcConfiguration"].
Proof. reflexivity. Qed.

(** C2. After every successful construction the policy set of the
    application role holds exactly seven grants: the artifact-read grant
    on the code object, the wildcard log-group-describe grant, the
    stream-describe and put-events grant on the created log group, the
    wildcard network-interface-lifecycle grant, the grant to create
    network-interface permissions on the network-interface pattern, the
    input stream's read grant and the output bucket's read/write grant;
    and that role is the application's execution role. *)
Theorem execution_role_policy_set_is_exactly_seven_grants `{Cdk}
    (scope id : string) (props : FlinkApplicationProps) (t' : This) :
  FlinkApplication scope id props = (Normal tt, t') →
  policySet t' "AppRole" =
    [ Statement {| resources := [codeBucketArn props ++ "/" ++ codeFileKey props];
                   actions := ["s3:GetObjectVersion"; "s3:GetObject"] |};
      Statement {| resources := ["arn:" ++ Aws_PARTITION ++ ":logs:" ++ Aws_REGION ++ ":"
                                   ++ Aws_ACCOUNT_ID ++ ":log-group:*"];
                   actions := ["logs:DescribeLogGroups"] |};
      Statement {| resources := [attToken (childPath (newConstruct scope id) "LogGroup") "Arn"];
                   actions := ["logs:DescribeLogStreams"; "logs:PutLogEvents"] |};
      Statement {| resources := ["*"];
                   actions := ["ec2:CreateNetworkInterface";
                               "ec2:DescribeNetworkInterfaces";
                               "ec2:DescribeVpcs";
                               "ec2:DeleteNetworkInterface";
                               "ec2:DescribeDhcpOptions";
                               "ec2:DescribeSubnets";
                               "ec2:DescribeSecurityGroups"] |};
      Statement {| resources := ["arn:" ++ Aws_PARTITION ++ ":ec2:" ++ Aws_REGION ++ ":"
                                   ++ Aws_ACCOUNT_ID ++ ":network-interface/*"];
                   actions := ["ec2:CreateNetworkInterfacePermission"] |};
      Delegated (StreamRead (inputStream props));
      Delegated (BucketReadWrite (outputBucket props)) ]
  ∧ length (policySet t' "AppRole") = 7
  ∧ ∃ app, applicationProps t' = Some app
           ∧ serviceExecutionRole app
             = attToken (childPath (newConstruct scope id) "AppRole") "Arn".
Proof.
  intros Hrun. apply FlinkApplication_success in Hrun as (_ & _ & n & Hret & ->).
  split; [apply built_policySet|]. split; [by rewrite built_policySet|].
  eexists. split; vm_compute; reflexivity.
Qed.

Lemma execution_role_policy_set_witness :
  FlinkApplication (H := exampleCdk) "Stack" "Flink" exampleProps
    = (Normal tt, built (H := exampleCdk) "Stack" "Flink" exampleProps)
  ∧ length (policySet (built (H := exampleCdk) "Stack" "Flink" exampleProps) "AppRole") = 7.
Proof.
  split; [vm_compute; reflexivity|].
  apply (execution_role_policy_set_is_exactly_seven_grants (H := exampleCdk)
           "Stack" "Flink" exampleProps).
  vm_compute; reflexivity.
Defined.

(** C9. The code-artifact grant in the role's policy set is read-only,
    with the two actions get-object-version and get-object, and its only
    resource is the object path made of the code bucket ARN and the code
    file key, never the bucket ARN itself; no other statement attached
    to the role carries an object-storage action. *)
Theorem code_artifact_grant_is_read_only_on_the_object `{Cdk}
    (scope id : string) (props : FlinkApplicationProps) (t' : This) :
  FlinkApplication scope id props = (Normal tt, t') →
  let codeRead := {| resources := [codeBucketArn props ++ "/" ++ codeFileKey props];
                     actions := ["s3:GetObjectVersion"; "s3:GetObject"] |} in
  policyStatements t' "CodePolicy" = [codeRead]
  ∧ (∃ r, lookupChild "AppRole" (children t') = Some (RRole r)
          ∧ "CodePolicy" ∈ attachedPolicies r)
  ∧ (∀ s, Statement s ∈ policySet t' "AppRole" →
          (∃ a, a ∈ actions s ∧ isPrefixOf "s3:" a = true) → s = codeRead)
  ∧ codeBucketArn props ++ "/" ++ codeFileKey props ≠ codeBucketArn props.
Proof.
  intros Hrun codeRead. apply FlinkApplication_success in Hrun as (_ & _ & n & Hret & ->).
  split; [vm_compute; reflexivity|]. split.
  { eexists. split; [vm_compute; reflexivity|]. apply list_elem_of_here. }
  split; [|by apply append_nonempty_ne].
  intros s Hs (a & Ha & Hpre). rewrite built_policySet in Hs.
  repeat (apply elem_of_cons in Hs as [Hs|Hs];
          [ try discriminate Hs; injection Hs as -> |]);
    [ done | .. | by apply elem_of_nil in Hs ];
    exfalso; simpl in Ha;
    repeat (apply elem_of_cons in Ha as [->|Ha]; [simpl in Hpre; discriminate|]);
    by apply elem_of_nil in Ha.
Qed.

Lemma code_artifact_grant_witness :
  FlinkApplication (H := exampleCdk) "Stack" "Flink" exampleProps
    = (Normal tt, built (H := exampleCdk) "Stack" "Flink" exampleProps)
  ∧ policyStatements (built (H := exampleCdk) "Stack" "Flink" exampleProps) "CodePolicy"
    = [ {| resources := ["arn:aws:s3:::code-bucket/flink/app.zip"];
           actions := ["s3:GetObjectVersion"; "s3:GetObject"] |} ].
Proof.
  split; [vm_compute; reflexivity|].
  apply (code_artifact_grant_is_read_only_on_the_object (H := exampleCdk)
           "Stack" "Flink" exampleProps).
  vm_compute; reflexivity.
Defined.

(** ** The network-attachment request *)

(** The three children [createCustomResource] defines, as left in the
    finished construct. *)
Lemma built_callback_role `{Cdk} (scope id : string) (props : FlinkApplicationProps) (n : nat) :
  lookupChild "CustomResourceRole" (children (built scope id (withRetention (S n) props))) =
    Some (RExecutionRole "VpcConfigPolicy"
      {| doc_statements :=
           [ {| resources :=
                  ["arn:" ++ Aws_PARTITION ++ ":kinesisanalytics:" ++ Aws_REGION ++ ":"
                     ++ Aws_ACCOUNT_ID ++ ":application/"
                     ++ refToken (childPath (newConstruct scope id) "Application")];
                actions := ["kinesisanalytics:AddApplicationVpcConfiguration";
                            "kinesisanalytics:DeleteApplicationVpcConfiguration";
                            "kinesisanalytics:DescribeApplication"] |} ] |}).
Proof. vm_compute; reflexivity. Qed.

Lemma built_callback_function `{Cdk} (scope id : string) (props : FlinkApplicationProps) (n : nat) :
  lookupChild "CustomResource" (children (built scope id (withRetention (S n) props))) =
    Some (RFunction {| fn_runtime := "PYTHON_3_8";
                       fn_handler := "lambda_function.handler";
                       fn_role := "CustomResourceRole";
                       fn_code := "lambda/kda-vpc-config";
                       fn_timeout_seconds := 30 |}).
Proof. vm_compute; reflexivity. Qed.

Lemma built_request `{Cdk} (scope id : string) (props : FlinkApplicationProps) (n : nat) :
  customResourceProps (built scope id (withRetention (S n) props)) "VpcConfiguration" =
    Some {| serviceToken := attToken (childPath (newConstruct scope id) "CustomResource") "Arn";
            properties :=
              <["SecurityGroupIds" := JArray (orEmpty (securityGroupIds props))]>
                (<["SubnetIds" := JArray (orEmpty (subnetIds props))]>
                   (<["ApplicationName" :=
                        JString (refToken (childPath (newConstruct scope id) "Application"))]> ∅));
            resourceType := "Custom::VpcConfiguration" |}.
Proof. vm_compute; reflexivity. Qed.

(** C5. The request always carries a [SubnetIds] and a
    [SecurityGroupIds] list: the caller's list when one is given, the
    empty list when the input is left out; so an empty list stays an
    empty list and neither key is ever absent. *)
Theorem request_lists_always_present `{Cdk}
    (scope id : string) (props : FlinkApplicationProps) (t' : This) :
  FlinkApplication scope id props = (Normal tt, t') →
  ∃ p, customResourceProps t' "VpcConfiguration" = Some p
    ∧ properties p !! "SubnetIds" = Some (JArray (default [] (subnetIds props)))
    ∧ properties p !! "SecurityGroupIds" = Some (JArray (default [] (securityGroupIds props)))
    ∧ (subnetIds props = Some [] ∨ subnetIds props = None →
         properties p !! "SubnetIds" = Some (JArray []))
    ∧ (securityGroupIds props = Some [] ∨ securityGroupIds props = None →
         properties p !! "SecurityGroupIds" = Some (JArray [])).
Proof.
  intros Hrun. apply FlinkApplication_success in Hrun as (_ & _ & n & Hret & ->).
  eexists. split; [apply built_request|]. cbn [properties].
  rewrite lookup_insert_eq, lookup_insert_ne, lookup_insert_eq by done.
  split; [by destruct (subnetIds props)|].
  split; [by destruct (securityGroupIds props)|].
  split; by intros [-> | ->].
Qed.

Lemma request_lists_always_present_witness :
  FlinkApplication (H := exampleCdk) "Stack" "Flink" (withoutPlacement exampleProps)
    = (Normal tt, built (H := exampleCdk) "Stack" "Flink" (withoutPlacement exampleProps))
  ∧ ∃ p, customResourceProps
           (built (H := exampleCdk) "Stack" "Flink" (withoutPlacement exampleProps))
           "VpcConfiguration" = Some p
      ∧ properties p !! "SubnetIds" = Some (JArray [])
      ∧ properties p !! "SecurityGroupIds" = Some (JArray []).
Proof.
  split; [vm_compute; reflexivity|].
  destruct (request_lists_always_present (H := exampleCdk) "Stack" "Flink"
              (withoutPlacement exampleProps)
              (built (H := exampleCdk) "Stack" "Flink" (withoutPlacement exampleProps)))
    as (p & Hp & Hs & Hg & _); [vm_compute; reflexivity|].
  exists p. auto.
Defined.

(** C7. The role of the network-attachment callback function carries
    one statement, with exactly the three actions
    add-VPC-configuration, delete-VPC-configuration and
    describe-application, on the one resource that is the application
    pattern of this construct's application. *)
Theorem callback_role_has_three_actions_on_the_application `{Cdk}
    (scope id : string) (props : FlinkApplicationProps) (t' : This) :
  FlinkApplication scope id props = (Normal tt, t') →
  let vpcConfig :=
    {| resources := ["arn:" ++ Aws_PARTITION ++ ":kinesisanalytics:" ++ Aws_REGION ++ ":"
                       ++ Aws_ACCOUNT_ID ++ ":application/"
                       ++ refToken (childPath (newConstruct scope id) "Application")];
       actions := ["kinesisanalytics:AddApplicationVpcConfiguration";
                   "kinesisanalytics:DeleteApplicationVpcConfiguration";
                   "kinesisanalytics:DescribeApplication"] |} in
  (∃ f, lookupChild "CustomResource" (children t') = Some (RFunction f)
        ∧ fn_role f = "CustomResourceRole")
  ∧ lookupChild "CustomResourceRole" (children t')
    = Some (RExecutionRole "VpcConfigPolicy" {| doc_statements := [vpcConfig] |})
  ∧ functionRoleStatements t' "CustomResource" = [vpcConfig]
  ∧ ∀ s a, s ∈ functionRoleStatements t' "CustomResource" → a ∈ actions s →
      resources s = resources vpcConfig
      ∧ (a = "kinesisanalytics:AddApplicationVpcConfiguration"
         ∨ a = "kinesisanalytics:DeleteApplicationVpcConfiguration"
         ∨ a = "kinesisanalytics:DescribeApplication").
Proof.
  intros Hrun vpcConfig. apply FlinkApplication_success in Hrun as (_ & _ & n & Hret & ->).
  assert (Hstmts : functionRoleStatements (built scope id (withRetention (S n) props)) "CustomResource"
                   = [vpcConfig]).
  { unfold functionRoleStatements.
    rewrite built_callback_function. cbn [fn_role]. by rewrite built_callback_role. }
  split; [eexists; split; [apply built_callback_function|done]|].
  split; [apply built_callback_role|]. split; [exact Hstmts|].
  intros s a Hs Ha. rewrite Hstmts in Hs.
  apply list_elem_of_singleton in Hs as ->. split; [done|].
  cbn [actions vpcConfig] in Ha.
  repeat (apply elem_of_cons in Ha as [->|Ha]; [auto|]).
  by apply elem_of_nil in Ha.
Qed.

Lemma callback_role_witness :
  FlinkApplication (H := exampleCdk) "Stack" "Flink" exampleProps
    = (Normal tt, built (H := exampleCdk) "Stack" "Flink" exampleProps)
  ∧ map actions
      (functionRoleStatements (built (H := exampleCdk) "Stack" "Flink" exampleProps)
         "CustomResource")
    = [ ["kinesisanalytics:AddApplicationVpcConfiguration";
         "kinesisanalytics:DeleteApplicationVpcConfiguration";
         "kinesisanalytics:DescribeApplication"] ].
Proof.
  split; [vm_compute; reflexivity|].
  destruct (callback_role_has_three_actions_on_the_application (H := exampleCdk)
              "Stack" "Flink" exampleProps
              (built (H := exampleCdk) "Stack" "Flink" exampleProps))
    as (_ & _ & -> & _); [vm_compute; reflexivity|].
  reflexivity.
Defined.

(** ** The application identifier *)

(** C10. After every successful construction the application name of
    the logging option, the application named in the resource pattern of
    the callback role, and the [ApplicationName] of the
    network-attachment request are one value: the one the construct's
    [ApplicationName] getter returns. *)
Theorem application_name_is_shared `{Cdk}
    (scope id : string) (props : FlinkApplicationProps) (t' : This) :
  FlinkApplication scope id props = (Normal tt, t') →
  ∃ name, ApplicationName t' = (Normal name, t')
    ∧ (∃ logStreamArn, lookupChild "Logging" (children t')
         = Some (RCfnApplicationCloudWatchLoggingOptionV2 name logStreamArn))
    ∧ map resources (functionRoleStatements t' "CustomResource")
      = [ ["arn:" ++ Aws_PARTITION ++ ":kinesisanalytics:" ++ Aws_REGION ++ ":"
             ++ Aws_ACCOUNT_ID ++ ":application/" ++ name] ]
    ∧ (∃ p, customResourceProps t' "VpcConfiguration" = Some p
            ∧ properties p !! "ApplicationName" = Some (JString name)).
Proof.
  intros Hrun. apply FlinkApplication_success in Hrun as (_ & _ & n & Hret & ->).
  exists (refToken (childPath (newConstruct scope id) "Application")).
  split; [vm_compute; reflexivity|].
  split; [eexists; vm_compute; reflexivity|].
  split.
  { unfold functionRoleStatements.
    rewrite built_callback_function. cbn [fn_role]. by rewrite built_callback_role. }
  eexists. split; [apply built_request|]. cbn [properties].
  by rewrite !lookup_insert_ne, lookup_insert_eq by done.
Qed.

Lemma application_name_is_shared_witness :
  FlinkApplication (H := exampleCdk) "Stack" "Flink" exampleProps
    = (Normal tt, built (H := exampleCdk) "Stack" "Flink" exampleProps)
  ∧ ∃ name,
      ApplicationName (H := exampleCdk) (built (H := exampleCdk) "Stack" "Flink" exampleProps)
        = (Normal name, built (H := exampleCdk) "Stack" "Flink" exampleProps)
      ∧ ∃ p, customResourceProps (built (H := exampleCdk) "Stack" "Flink" exampleProps)
               "VpcConfiguration" = Some p
             ∧ properties p !! "ApplicationName" = Some (JString name).
Proof.
  split; [vm_compute; reflexivity|].
  destruct (application_name_is_shared (H := exampleCdk) "Stack" "Flink" exampleProps
              (built (H := exampleCdk) "Stack" "Flink" exampleProps))
    as (name & Hname & _ & _ & Hreq); [vm_compute; reflexivity|].
  exists name. auto.
Defined.

(** ** The feature toggles *)

(** The end-to-end scenario: the monitoring levels are the inputs, and
    the request carries two empty lists. *)
Example end_to_end_scenario :
  (monitoring_logLevel <$> applicationProps (built (H := exampleCdk) "Stack" "Flink" exampleProps))
    = Some "INFO"
  ∧ (monitoring_metricsLevel
       <$> applicationProps (built (H := exampleCdk) "Stack" "Flink" exampleProps))
    = Some "APPLICATION"
  ∧ (req_SubnetIds <$> (customResourceProps (built (H := exampleCdk) "Stack" "Flink" exampleProps)
                          "VpcConfiguration" ≫= requestOf)) = Some []
  ∧ (req_SecurityGroupIds
       <$> (customResourceProps (built (H := exampleCdk) "Stack" "Flink" exampleProps)
              "VpcConfiguration" ≫= requestOf)) = Some [].
Proof. repeat split; vm_compute; reflexivity. Qed.

Lemma built_templateConditions `{Cdk} (scope id : string) (props : FlinkApplicationProps) (n : nat) :
  templateConditions (built scope id (withRetention (S n) props)) =
    <[logicalIdToken (childPath (newConstruct scope id) "EnableSnapshots")
        := FnEquals (enableSnapshots props) "true"]>
      (<[logicalIdToken (childPath (newConstruct scope id) "EnableAutoScaling")
           := FnEquals (enableAutoScaling props) "true"]> ∅).
Proof. reflexivity. Qed.

Lemma built_application `{Cdk} (scope id : string) (props : FlinkApplicationProps) (n : nat) :
  ∃ app, applicationProps (built scope id (withRetention (S n) props)) = Some app
    ∧ autoScalingEnabled app
      = FnIf (logicalIdToken (childPath (newConstruct scope id) "EnableAutoScaling")) true false
    ∧ snapshotsEnabled app
      = FnIf (logicalIdToken (childPath (newConstruct scope id) "EnableSnapshots")) true false.
Proof. eexists. repeat split; vm_compute; reflexivity. Qed.

Lemma evalCondition_equals_true `{Cdk} (ρ : string → string) (toggle : string) :
  isUnresolved "true" = false →
  (if evalCondition ρ (FnEquals toggle "true") then true else false)
    = bool_decide (resolveString ρ toggle = "true").
Proof.
  intros Htrue. unfold evalCondition, resolveString at 2. rewrite Htrue.
  destruct (String.eqb_spec (resolveString ρ toggle) "true") as [Heq|Hne].
  - by rewrite bool_decide_eq_true_2.
  - by rewrite bool_decide_eq_false_2.
Qed.

(** C4. For each toggle the construct registers the deferred equality
    of the toggle input with the literal [true] and puts the deferred
    ternary over that condition, not a boolean, into the application's
    auto-scaling-enabled and snapshots-enabled fields.  Once resolved,
    the field is true exactly when the toggle's value is [true], and
    false for every other string. *)
Theorem toggles_are_deferred_and_resolve_to_equality_with_true `{Cdk}
    (scope id : string) (props : FlinkApplicationProps) (t' : This) (ρ : string → string) :
  FlinkApplication scope id props = (Normal tt, t') →
  isUnresolved "true" = false →
  logicalIdToken (childPath (newConstruct scope id) "EnableAutoScaling")
    ≠ logicalIdToken (childPath (newConstruct scope id) "EnableSnapshots") →
  lookupChild "EnableAutoScaling" (children t')
    = Some (RCfnCondition (FnEquals (enableAutoScaling props) "true"))
  ∧ lookupChild "EnableSnapshots" (children t')
    = Some (RCfnCondition (FnEquals (enableSnapshots props) "true"))
  ∧ ∃ app, applicationProps t' = Some app
    ∧ autoScalingEnabled app
      = FnIf (logicalIdToken (childPath (newConstruct scope id) "EnableAutoScaling")) true false
    ∧ snapshotsEnabled app
      = FnIf (logicalIdToken (childPath (newConstruct scope id) "EnableSnapshots")) true false
    ∧ resolveBool ρ t' (autoScalingEnabled app)
      = Some (bool_decide (resolveString ρ (enableAutoScaling props) = "true"))
    ∧ resolveBool ρ t' (snapshotsEnabled app)
      = Some (bool_decide (resolveString ρ (enableSnapshots props) = "true"))
    ∧ (isUnresolved (enableAutoScaling props) = false →
         resolveBool ρ t' (autoScalingEnabled app)
         = Some (bool_decide (enableAutoScaling props = "true")))
    ∧ (isUnresolved (enableSnapshots props) = false →
         resolveBool ρ t' (snapshotsEnabled app)
         = Some (bool_decide (enableSnapshots props = "true"))).
Proof.
  intros Hrun Htrue Hids. apply FlinkApplication_success in Hrun as (_ & _ & n & Hret & ->).
  split; [vm_compute; reflexivity|]. split; [vm_compute; reflexivity|].
  destruct (built_application scope id props n) as (app & Happ & Hauto & Hsnap).
  exists app. rewrite Hauto, Hsnap. unfold resolveBool.
  rewrite built_templateConditions.
  rewrite lookup_insert_eq, lookup_insert_ne, lookup_insert_eq by (by apply not_eq_sym).
  rewrite !evalCondition_equals_true by done.
  repeat (split; [done|]).
  split; intros Hknown; unfold resolveString; by rewrite Hknown.
Qed.

Lemma toggles_witness :
  FlinkApplication (H := exampleCdk) "Stack" "Flink" exampleProps
    = (Normal tt, built (H := exampleCdk) "Stack" "Flink" exampleProps)
  ∧ isUnresolved (Cdk := exampleCdk) "true" = false
  ∧ ∃ app, applicationProps (built (H := exampleCdk) "Stack" "Flink" exampleProps) = Some app
      ∧ resolveBool (H := exampleCdk) id (built (H := exampleCdk) "Stack" "Flink" exampleProps)
          (autoScalingEnabled app) = Some true
      ∧ resolveBool (H := exampleCdk) id (built (H := exampleCdk) "Stack" "Flink" exampleProps)
          (snapshotsEnabled app) = Some false.
Proof.
  split; [vm_compute; reflexivity|]. split; [vm_compute; reflexivity|].
  destruct (toggles_are_deferred_and_resolve_to_equality_with_true (H := exampleCdk)
              "Stack" "Flink" exampleProps
              (built (H := exampleCdk) "Stack" "Flink" exampleProps) id)
    as (_ & _ & app & Happ & _ & _ & _ & _ & Hauto & Hsnap).
  - vm_compute; reflexivity.
  - vm_compute; reflexivity.
  - intros Heq. vm_compute in Heq. discriminate Heq.
  - exists app. split; [exact Happ|]. split.
    + apply Hauto. vm_compute; reflexivity.
    + apply Hsnap. vm_compute; reflexivity.
Defined.

(** ** Reconciling the network attachment *)

Lemma reconcile_idempotent (ev : RequestType) (req : NetworkAttachmentRequest)
    (st : gmap string (list string * list string)) :
  reconcile ev req (reconcile ev req st) = reconcile ev req st.
Proof.
  destruct ev; simpl.
  - apply insert_insert_eq.
  - apply insert_insert_eq.
  - apply delete_delete_eq.
Qed.

Lemma built_requestOf `{Cdk} (scope id : string) (props : FlinkApplicationProps) (n : nat) :
  customResourceProps (built scope id (withRetention (S n) props)) "VpcConfiguration" ≫= requestOf =
    Some {| req_ApplicationName := refToken (childPath (newConstruct scope id) "Application");
            req_SubnetIds := default [] (subnetIds props);
            req_SecurityGroupIds := default [] (securityGroupIds props) |}.
Proof.
  rewrite built_request. cbn [mbind option_bind]. unfold requestOf. cbn [properties].
  rewrite !lookup_insert_ne, lookup_insert_eq by done.
  rewrite lookup_insert_ne, lookup_insert_eq by done.
  rewrite lookup_insert_eq.
  by destruct (subnetIds props), (securityGroupIds props).
Qed.

(** C6. Two constructions that agree on the subnet and security-group
    lists (an omitted list counting as the empty one) produce the same
    request for the same application, and handing that request to the
    reconciler twice leaves the network-attachment state it leaves when
    handed over once, for each lifecycle event. *)
Theorem network_attachment_request_is_idempotent `{Cdk}
    (scope id : string) (p q : FlinkApplicationProps) (t1 t2 : This) :
  FlinkApplication scope id p = (Normal tt, t1) →
  FlinkApplication scope id q = (Normal tt, t2) →
  default [] (subnetIds p) = default [] (subnetIds q) →
  default [] (securityGroupIds p) = default [] (securityGroupIds q) →
  ∃ req, customResourceProps t1 "VpcConfiguration" ≫= requestOf = Some req
    ∧ customResourceProps t2 "VpcConfiguration" ≫= requestOf = Some req
    ∧ req = {| req_ApplicationName := refToken (childPath (newConstruct scope id) "Application");
               req_SubnetIds := default [] (subnetIds p);
               req_SecurityGroupIds := default [] (securityGroupIds p) |}
    ∧ ∀ ev st, reconcile ev req (reconcile ev req st) = reconcile ev req st.
Proof.
  intros Hp Hq Hsub Hsg.
  apply FlinkApplication_success in Hp as (_ & _ & n & Hret & ->).
  apply FlinkApplication_success in Hq as (_ & _ & m & Hretq & ->).
  eexists. split; [apply built_requestOf|].
  split; [by rewrite built_requestOf, Hsub, Hsg|].
  split; [done|]. intros ev st. apply reconcile_idempotent.
Qed.

Lemma network_attachment_request_witness :
  FlinkApplication (H := exampleCdk) "Stack" "Flink" exampleProps
    = (Normal tt, built (H := exampleCdk) "Stack" "Flink" exampleProps)
  ∧ FlinkApplication (H := exampleCdk) "Stack" "Flink" (withoutPlacement exampleProps)
    = (Normal tt, built (H := exampleCdk) "Stack" "Flink" (withoutPlacement exampleProps))
  ∧ ∃ req,
      customResourceProps (built (H := exampleCdk) "Stack" "Flink" exampleProps)
        "VpcConfiguration" ≫= requestOf = Some req
      ∧ customResourceProps
          (built (H := exampleCdk) "Stack" "Flink" (withoutPlacement exampleProps))
          "VpcConfiguration" ≫= requestOf = Some req
      ∧ req_SubnetIds req = [] ∧ req_SecurityGroupIds req = []
      ∧ reconcile Create req (reconcile Create req ∅) = reconcile Create req ∅.
Proof.
  split; [vm_compute; reflexivity|]. split; [vm_compute; reflexivity|].
  destruct (network_attachment_request_is_idempotent (H := exampleCdk) "Stack" "Flink"
              exampleProps (withoutPlacement exampleProps)
              (built (H := exampleCdk) "Stack" "Flink" exampleProps)
              (built (H := exampleCdk) "Stack" "Flink" (withoutPlacement exampleProps)))
    as (req & H1 & H2 & -> & Hidem); [vm_compute; reflexivity..|].
  eexists. split; [exact H1|]. split; [exact H2|].
  split; [reflexivity|]. split; [reflexivity|]. apply Hidem.
Defined.

(** * Further properties of the construct *)

(** ** Order of the two verbosity checks *)

(** X1. The log level is checked first: a concretely known log level
    outside its allowed set fails construction with the log-level
    message whatever the metrics level is, also when the metrics level
    is invalid too. *)
Theorem invalid_log_level_is_reported_first `{Cdk}
    (scope id : string) (props : FlinkApplicationProps) :
  isUnresolved (logLevel props) = false →
  logLevel props ∉ AllowedLogLevels →
  FlinkApplication scope id props
    = (Throw ("Unknown log level: " ++ logLevel props), newConstruct scope id).
Proof.
  intros Hknown Hout. rewrite FlinkApplication_run.
  by rewrite (proj2 (badLogLevel_true props) (conj Hknown Hout)).
Qed.

Lemma invalid_log_level_is_reported_first_witness :
  isUnresolved (Cdk := exampleCdk) "TRACE" = false
  ∧ ("TRACE" ∉ AllowedLogLevels)
  ∧ FlinkApplication (H := exampleCdk) "Stack" "Flink"
      (withMetricsLevel "FINE" (withLogLevel "TRACE" exampleProps))
    = (Throw "Unknown log level: TRACE", newConstruct "Stack" "Flink").
Proof.
  assert (Hout : "TRACE" ∉ AllowedLogLevels).
  { apply includes_false_not_elem_of. vm_compute; reflexivity. }
  split; [vm_compute; reflexivity|]. split; [exact Hout|].
  apply (invalid_log_level_is_reported_first (H := exampleCdk) "Stack" "Flink"
           (withMetricsLevel "FINE" (withLogLevel "TRACE" exampleProps)));
    [vm_compute; reflexivity | exact Hout].
Defined.

(** X2. The metrics level is checked whenever the log-level check lets
    construction go on, be it because the log level is allowed or
    because it is deferred: a concretely known metrics level outside its
    allowed set then fails construction with the metrics-level message. *)
Theorem invalid_metrics_level_is_reported_after_log_level `{Cdk}
    (scope id : string) (props : FlinkApplicationProps) :
  isUnresolved (logLevel props) = true ∨ logLevel props ∈ AllowedLogLevels →
  isUnresolved (metricsLevel props) = false →
  metricsLevel props ∉ AllowedMetricLevels →
  FlinkApplication scope id props
    = (Throw ("Unknown metrics level: " ++ metricsLevel props), newConstruct scope id).
Proof.
  intros Hlog Hknown Hout. rewrite FlinkApplication_run.
  assert (Hl : badLogLevel props = false).
  { destruct (badLogLevel props) eqn:Hb; [|done].
    apply badLogLevel_true in Hb as [Hk Hn]. destruct Hlog as [Hu|Hin]; [congruence|done]. }
  by rewrite Hl, (proj2 (badMetricsLevel_true props) (conj Hknown Hout)).
Qed.

Lemma invalid_metrics_level_witness :
  (isUnresolved (Cdk := exampleCdk) "${Token[TOKEN.7]}" = true
     ∨ "${Token[TOKEN.7]}" ∈ AllowedLogLevels)
  ∧ isUnresolved (Cdk := exampleCdk) "FINE" = false
  ∧ ("FINE" ∉ AllowedMetricLevels)
  ∧ FlinkApplication (H := exampleCdk) "Stack" "Flink"
      (withMetricsLevel "FINE" (withLogLevel "${Token[TOKEN.7]}" exampleProps))
    = (Throw "Unknown metrics level: FINE", newConstruct "Stack" "Flink").
Proof.
  assert (Hlog : isUnresolved (Cdk := exampleCdk) "${Token[TOKEN.7]}" = true
                 ∨ "${Token[TOKEN.7]}" ∈ AllowedLogLevels).
  { left. vm_compute; reflexivity. }
  assert (Hout : "FINE" ∉ AllowedMetricLevels).
  { apply includes_false_not_elem_of. vm_compute; reflexivity. }
  split; [exact Hlog|]. split; [vm_compute; reflexivity|]. split; [exact Hout|].
  apply (invalid_metrics_level_is_reported_after_log_level (H := exampleCdk) "Stack" "Flink"
           (withMetricsLevel "FINE" (withLogLevel "${Token[TOKEN.7]}" exampleProps)));
    [exact Hlog | vm_compute; reflexivity | exact Hout].
Defined.

(** ** What the constructor defines *)

(** X3. Every successful construction defines the same thirteen
    children, in the same order and under pairwise different ids,
    whatever the inputs; the application comes before the logging option
    and the custom resource that refer to it. *)
Theorem construction_defines_thirteen_children `{Cdk}
    (scope id : string) (props : FlinkApplicationProps) (t' : This) :
  FlinkApplication scope id props = (Normal tt, t') →
  (children t').*1 =
    ["LogGroup"; "LogStream"; "AppRole"; "CodePolicy"; "LogsPolicy"; "VpcPolicy";
     "EnableAutoScaling"; "EnableSnapshots"; "Application"; "Logging";
     "CustomResourceRole"; "CustomResource"; "VpcConfiguration"]
  ∧ NoDup (children t').*1
  ∧ LogGroup t' = Some "LogGroup"
  ∧ Application t' = Some "Application".
Proof.
  intros Hrun. apply FlinkApplication_success in Hrun as (_ & _ & n & Hret & ->).
  rewrite built_children_ids.
  split; [done|]. split; [|split; vm_compute; reflexivity].
  apply (bool_decide_unpack _). vm_compute. exact I.
Qed.

Lemma construction_defines_thirteen_children_witness :
  FlinkApplication (H := exampleCdk) "Stack" "Flink" exampleProps
    = (Normal tt, built (H := exampleCdk) "Stack" "Flink" exampleProps)
  ∧ length (children (built (H := exampleCdk) "Stack" "Flink" exampleProps)).*1 = 13.
Proof.
  split; [vm_compute; reflexivity|].
  destruct (construction_defines_thirteen_children (H := exampleCdk) "Stack" "Flink"
              exampleProps (built (H := exampleCdk) "Stack" "Flink" exampleProps))
    as (-> & _); [vm_compute; reflexivity|].
  reflexivity.
Defined.

(** X4. The log group is defined with the caller's retention period and
    is retained on deletion; the log stream is defined in that log
    group, the one the construct keeps in its [LogGroup] field, and is
    retained on deletion as well. *)
Theorem log_destination_is_retained `{Cdk}
    (scope id : string) (props : FlinkApplicationProps) (t' : This) :
  FlinkApplication scope id props = (Normal tt, t') →
  ∃ lg, LogGroup t' = Some lg
    ∧ lookupChild lg (children t') = Some (RLogGroup (logsRetentionDays props) RETAIN)
    ∧ lookupChild "LogStream" (children t') = Some (RLogStream lg RETAIN).
Proof.
  intros Hrun. apply FlinkApplication_success in Hrun as (_ & _ & n & Hret & ->).
  rewrite Hret. exists "LogGroup". runs.
Qed.

Lemma log_destination_is_retained_witness :
  FlinkApplication (H := exampleCdk) "Stack" "Flink" exampleProps
    = (Normal tt, built (H := exampleCdk) "Stack" "Flink" exampleProps)
  ∧ ∃ lg, LogGroup (built (H := exampleCdk) "Stack" "Flink" exampleProps) = Some lg
      ∧ lookupChild lg (children (built (H := exampleCdk) "Stack" "Flink" exampleProps))
        = Some (RLogGroup 7 RETAIN)
      ∧ lookupChild "LogStream" (children (built (H := exampleCdk) "Stack" "Flink" exampleProps))
        = Some (RLogStream lg RETAIN).
Proof.
  split; [vm_compute; reflexivity|].
  apply (log_destination_is_retained (H := exampleCdk) "Stack" "Flink" exampleProps).
  vm_compute; reflexivity.
Defined.

(** ** The application definition *)

(** X5. The code the application loads is the code its role may read:
    the application's code location is the caller's bucket ARN and file
    key, as a ZIP file for the runtime FLINK-1_8, and the one resource of
    the code policy is that bucket ARN and that file key joined by a
    slash. *)
Theorem application_code_is_the_code_the_role_reads `{Cdk}
    (scope id : string) (props : FlinkApplicationProps) (t' : This) :
  FlinkApplication scope id props = (Normal tt, t') →
  ∃ app, applicationProps t' = Some app
    ∧ runtimeEnvironment app = "FLINK-1_8"
    ∧ codeContentType app = "ZIPFILE"
    ∧ s3ContentLocation_bucketArn app = codeBucketArn props
    ∧ s3ContentLocation_fileKey app = codeFileKey props
    ∧ map resources (policyStatements t' "CodePolicy")
      = [ [s3ContentLocation_bucketArn app ++ "/" ++ s3ContentLocation_fileKey app] ].
Proof.
  intros Hrun. apply FlinkApplication_success in Hrun as (_ & _ & n & Hret & ->).
  eexists. split; [vm_compute; reflexivity|].
  runs.
Qed.

Lemma application_code_witness :
  FlinkApplication (H := exampleCdk) "Stack" "Flink" exampleProps
    = (Normal tt, built (H := exampleCdk) "Stack" "Flink" exampleProps)
  ∧ ∃ app, applicationProps (built (H := exampleCdk) "Stack" "Flink" exampleProps) = Some app
      ∧ s3ContentLocation_bucketArn app = "arn:aws:s3:::code-bucket"
      ∧ s3ContentLocation_fileKey app = "flink/app.zip".
Proof.
  split; [vm_compute; reflexivity|].
  destruct (application_code_is_the_code_the_role_reads (H := exampleCdk) "Stack" "Flink"
              exampleProps (built (H := exampleCdk) "Stack" "Flink" exampleProps))
    as (app & Happ & _ & _ & Hb & Hk & _); [vm_compute; reflexivity|].
  exists app. auto.
Defined.

(** X6. The monitoring configuration of the application carries the two
    verbosity inputs unchanged, in custom mode, and each of them is
    either deferred or a member of its allowed set; parallelism is in
    custom mode and checkpointing in default mode. *)
Theorem monitoring_carries_validated_levels `{Cdk}
    (scope id : string) (props : FlinkApplicationProps) (t' : This) :
  FlinkApplication scope id props = (Normal tt, t') →
  ∃ app, applicationProps t' = Some app
    ∧ monitoring_configurationType app = "CUSTOM"
    ∧ monitoring_logLevel app = logLevel props
    ∧ monitoring_metricsLevel app = metricsLevel props
    ∧ (isUnresolved (monitoring_logLevel app) = true
       ∨ monitoring_logLevel app ∈ AllowedLogLevels)
    ∧ (isUnresolved (monitoring_metricsLevel app) = true
       ∨ monitoring_metricsLevel app ∈ AllowedMetricLevels)
    ∧ parallelism_configurationType app = "CUSTOM"
    ∧ checkpoint_configurationType app = "DEFAULT".
Proof.
  intros Hrun. apply FlinkApplication_success in Hrun as (Hl & Hm & n & Hret & ->).
  eexists. split; [vm_compute; reflexivity|]. cbn.
  split; [done|]. split; [done|]. split; [done|].
  split; [|split; [|done]].
  - unfold badLogLevel in Hl. apply andb_false_iff in Hl as [Hl|Hl].
    + left. by apply negb_false_iff.
    + right. by apply includes_elem_of, negb_false_iff.
  - unfold badMetricsLevel in Hm. apply andb_false_iff in Hm as [Hm|Hm].
    + left. by apply negb_false_iff.
    + right. by apply includes_elem_of, negb_false_iff.
Qed.

Lemma monitoring_carries_validated_levels_witness :
  FlinkApplication (H := exampleCdk) "Stack" "Flink" exampleProps
    = (Normal tt, built (H := exampleCdk) "Stack" "Flink" exampleProps)
  ∧ ∃ app, applicationProps (built (H := exampleCdk) "Stack" "Flink" exampleProps) = Some app
      ∧ monitoring_logLevel app = "INFO"
      ∧ monitoring_metricsLevel app = "APPLICATION".
Proof.
  split; [vm_compute; reflexivity|].
  destruct (monitoring_carries_validated_levels (H := exampleCdk) "Stack" "Flink"
              exampleProps (built (H := exampleCdk) "Stack" "Flink" exampleProps))
    as (app & Happ & _ & Hl & Hm & _); [vm_compute; reflexivity|].
  exists app. auto.
Defined.

(** X7. The application receives one property group,
    [FlinkApplicationProperties], with three entries under different
    keys: the input stream's name, the output bucket's name and the
    region. *)
Theorem environment_properties_name_stream_bucket_region `{Cdk}
    (scope id : string) (props : FlinkApplicationProps) (t' : This) :
  FlinkApplication scope id props = (Normal tt, t') →
  ∃ app, applicationProps t' = Some app
    ∧ propertyGroupId app = "FlinkApplicationProperties"
    ∧ propertyMap app = [ ("InputStreamName", streamName (inputStream props));
                          ("OutputBucketName", bucketName (outputBucket props));
                          ("Region", Aws_REGION) ]
    ∧ NoDup (propertyMap app).*1.
Proof.
  intros Hrun. apply FlinkApplication_success in Hrun as (_ & _ & n & Hret & ->).
  eexists. split; [vm_compute; reflexivity|]. cbn.
  split; [done|]. split; [done|].
  apply (bool_decide_unpack _). vm_compute. exact I.
Qed.

Lemma environment_properties_witness :
  FlinkApplication (H := exampleCdk) "Stack" "Flink" exampleProps
    = (Normal tt, built (H := exampleCdk) "Stack" "Flink" exampleProps)
  ∧ ∃ app, applicationProps (built (H := exampleCdk) "Stack" "Flink" exampleProps) = Some app
      ∧ propertyMap app = [ ("InputStreamName", "input-stream");
                            ("OutputBucketName", "output-bucket");
                            ("Region", "${Token[AWS.Region.2]}") ].
Proof.
  split; [vm_compute; reflexivity|].
  destruct (environment_properties_name_stream_bucket_region (H := exampleCdk) "Stack" "Flink"
              exampleProps (built (H := exampleCdk) "Stack" "Flink" exampleProps))
    as (app & Happ & _ & Hmap & _); [vm_compute; reflexivity|].
  exists app. auto.
Defined.

(** ** Logging *)

(** X8. The logging option names a log stream ARN put together from the
    partition, region and account tokens, the name the [LogGroupName]
    getter returns and the name of the log stream defined in that very
    log group; reading the getter leaves the construct as it is. *)
Theorem logging_arn_names_the_group_and_its_stream `{Cdk}
    (scope id : string) (props : FlinkApplicationProps) (t' : This) :
  FlinkApplication scope id props = (Normal tt, t') →
  ∃ lg groupName streamName appName,
    LogGroup t' = Some lg
    ∧ LogGroupName t' = (Normal groupName, t')
    ∧ lookupChild "LogStream" (children t') = Some (RLogStream lg RETAIN)
    ∧ logStreamName "LogStream" t' = (Normal streamName, t')
    ∧ lookupChild "Logging" (children t')
      = Some (RCfnApplicationCloudWatchLoggingOptionV2 appName
                ("arn:" ++ Aws_PARTITION ++ ":logs:" ++ Aws_REGION ++ ":" ++ Aws_ACCOUNT_ID
                   ++ ":log-group:" ++ groupName ++ ":log-stream:" ++ streamName)).
Proof.
  intros Hrun. apply FlinkApplication_success in Hrun as (_ & _ & n & Hret & ->).
  exists "LogGroup", (refToken (childPath (newConstruct scope id) "LogGroup")),
         (refToken (childPath (newConstruct scope id) "LogStream")),
         (refToken (childPath (newConstruct scope id) "Application")).
  runs.
Qed.

Lemma logging_arn_witness :
  FlinkApplication (H := exampleCdk) "Stack" "Flink" exampleProps
    = (Normal tt, built (H := exampleCdk) "Stack" "Flink" exampleProps)
  ∧ ∃ groupName,
      LogGroupName (H := exampleCdk) (built (H := exampleCdk) "Stack" "Flink" exampleProps)
        = (Normal groupName, built (H := exampleCdk) "Stack" "Flink" exampleProps).
Proof.
  split; [vm_compute; reflexivity|].
  destruct (logging_arn_names_the_group_and_its_stream (H := exampleCdk) "Stack" "Flink"
              exampleProps (built (H := exampleCdk) "Stack" "Flink" exampleProps))
    as (lg & groupName & _ & _ & _ & Hname & _); [vm_compute; reflexivity|].
  exists groupName. exact Hname.
Defined.

(** ** The role and its policies *)

(** X9. The construct defines three policies and attaches each of them
    to the application role and to no other role; the role, which the
    streaming-analytics service may assume, has these three attached, in
    the order code, logs, VPC, followed by its own default policy, which
    the two grants create and fill. *)
Theorem every_policy_is_attached_to_the_application_role `{Cdk}
    (scope id : string) (props : FlinkApplicationProps) (t' : This) :
  FlinkApplication scope id props = (Normal tt, t') →
  policyIds t' = ["CodePolicy"; "LogsPolicy"; "VpcPolicy"]
  ∧ (∃ r, lookupChild "AppRole" (children t') = Some (RRole r)
          ∧ assumedBy r = "kinesisanalytics.amazonaws.com"
          ∧ attachedPolicies r = (policyIds t' ++ ["AppRole/DefaultPolicy"])%list
          ∧ principalGrants r = [StreamRead (inputStream props);
                                 BucketReadWrite (outputBucket props)])
  ∧ ∀ policy, policy ∈ policyIds t' → policyRoles t' policy = ["AppRole"].
Proof.
  intros Hrun. apply FlinkApplication_success in Hrun as (_ & _ & n & Hret & ->).
  assert (Hids : policyIds (built scope id (withRetention (S n) props)) = ["CodePolicy"; "LogsPolicy"; "VpcPolicy"])
    by (vm_compute; reflexivity).
  rewrite Hids. split; [done|]. split.
  { eexists. split; [vm_compute; reflexivity|]. runs. }
  intros policy Hin.
  repeat (apply elem_of_cons in Hin as [->|Hin]; [vm_compute; reflexivity|]).
  by apply elem_of_nil in Hin.
Qed.

Lemma every_policy_is_attached_witness :
  FlinkApplication (H := exampleCdk) "Stack" "Flink" exampleProps
    = (Normal tt, built (H := exampleCdk) "Stack" "Flink" exampleProps)
  ∧ policyIds (built (H := exampleCdk) "Stack" "Flink" exampleProps)
    = ["CodePolicy"; "LogsPolicy"; "VpcPolicy"].
Proof.
  split; [vm_compute; reflexivity|].
  apply (every_policy_is_attached_to_the_application_role (H := exampleCdk) "Stack" "Flink"
           exampleProps).
  vm_compute; reflexivity.
Defined.

(** X10. The only policy carrying a scanner suppression is the VPC
    policy, and it carries the single rule W12; that policy is the one
    whose first statement has the bare wildcard as its only resource. *)
Theorem suppression_is_on_the_wildcard_policy_only `{Cdk}
    (scope id : string) (props : FlinkApplicationProps) (t' : This) :
  FlinkApplication scope id props = (Normal tt, t') →
  suppressedPolicies t'
    = [ ("VpcPolicy",
         [ {| nag_id := "W12";
              nag_reason := "Actions do not support resource level permissions" |} ]) ]
  ∧ resources <$> policyStatements t' "VpcPolicy" !! 0 = Some ["*"].
Proof.
  intros Hrun. apply FlinkApplication_success in Hrun as (_ & _ & n & Hret & ->).
  runs.
Qed.

Lemma suppression_witness :
  FlinkApplication (H := exampleCdk) "Stack" "Flink" exampleProps
    = (Normal tt, built (H := exampleCdk) "Stack" "Flink" exampleProps)
  ∧ (suppressedPolicies (built (H := exampleCdk) "Stack" "Flink" exampleProps)).*1
    = ["VpcPolicy"].
Proof.
  split; [vm_compute; reflexivity|].
  destruct (suppression_is_on_the_wildcard_policy_only (H := exampleCdk) "Stack" "Flink"
              exampleProps (built (H := exampleCdk) "Stack" "Flink" exampleProps))
    as (-> & _); [vm_compute; reflexivity|].
  reflexivity.
Defined.

(** ** The custom resource *)

(** X11. The custom resource is of type [Custom::VpcConfiguration], its
    service token is the ARN of the callback function defined just
    before it, a function with a 30 second timeout whose role is the
    execution role defined before it, and its properties have the three
    keys [ApplicationName], [SubnetIds] and [SecurityGroupIds] and no
    other. *)
Theorem custom_resource_calls_the_callback_with_three_keys `{Cdk}
    (scope id : string) (props : FlinkApplicationProps) (t' : This) :
  FlinkApplication scope id props = (Normal tt, t') →
  ∃ p f fnArn,
    customResourceProps t' "VpcConfiguration" = Some p
    ∧ resourceType p = "Custom::VpcConfiguration"
    ∧ functionArn "CustomResource" t' = (Normal fnArn, t')
    ∧ serviceToken p = fnArn
    ∧ lookupChild "CustomResource" (children t') = Some (RFunction f)
    ∧ fn_timeout_seconds f = 30
    ∧ fn_handler f = "lambda_function.handler"
    ∧ (∃ name doc, lookupChild (fn_role f) (children t') = Some (RExecutionRole name doc))
    ∧ dom (properties p) = ({["ApplicationName"; "SubnetIds"; "SecurityGroupIds"]} : gset string).
Proof.
  intros Hrun. apply FlinkApplication_success in Hrun as (_ & _ & n & Hret & ->).
  eexists _, _, (attToken (childPath (newConstruct scope id) "CustomResource") "Arn").
  split; [apply built_request|]. split; [done|].
  split; [vm_compute; reflexivity|]. split; [done|].
  split; [apply built_callback_function|]. split; [done|]. split; [done|].
  split; [cbn [fn_role]; rewrite built_callback_role; eauto|].
  cbn [properties]. rewrite !dom_insert_L, dom_empty_L. set_solver.
Qed.

Lemma custom_resource_witness :
  FlinkApplication (H := exampleCdk) "Stack" "Flink" exampleProps
    = (Normal tt, built (H := exampleCdk) "Stack" "Flink" exampleProps)
  ∧ ∃ p, customResourceProps (built (H := exampleCdk) "Stack" "Flink" exampleProps)
           "VpcConfiguration" = Some p
      ∧ dom (properties p)
        = ({["ApplicationName"; "SubnetIds"; "SecurityGroupIds"]} : gset string).
Proof.
  split; [vm_compute; reflexivity|].
  destruct (custom_resource_calls_the_callback_with_three_keys (H := exampleCdk)
              "Stack" "Flink" exampleProps
              (built (H := exampleCdk) "Stack" "Flink" exampleProps))
    as (p & _ & _ & Hp & _ & _ & _ & _ & _ & _ & _ & Hdom); [vm_compute; reflexivity|].
  exists p. auto.
Defined.

(** * The methods on a node under construction

    The three private methods are run by the constructor at fixed points,
    but each is a method of its own: what follows states what it needs of
    the node it is called on, and what it leaves there, for any children
    the node already has. *)

Lemma lookupChild_app (id : string) (cs ds : list (string * Resource)) :
  lookupChild id (cs ++ ds)%list =
    match lookupChild id cs with
    | Some r => Some r
    | None => lookupChild id ds
    end.
Proof.
  induction cs as [|[k r] cs IH]; simpl; [done|]. by destruct (String.eqb k id).
Qed.

Lemma alterChild_app_fresh (f : Resource → Resource) (id : string)
    (cs ds : list (string * Resource)) :
  lookupChild id cs = None →
  alterChild f id (cs ++ ds)%list = (cs ++ alterChild f id ds)%list.
Proof.
  induction cs as [|[k r] cs IH]; simpl; [done|].
  destruct (String.eqb k id); [done|]. intros Hcs. by rewrite IH.
Qed.

Lemma lookupChild_app_kept (id : string) (r : Resource) (cs ds : list (string * Resource)) :
  lookupChild id cs = Some r → lookupChild id (cs ++ ds)%list = Some r.
Proof. intros Hcs. by rewrite lookupChild_app, Hcs. Qed.

Ltac fresh_step :=
  rewrite <- ?app_assoc; cbn [app];
  rewrite ?alterChild_app_fresh by assumption;
  on_new;
  rewrite ?lookupChild_app;
  repeat match goal with H : lookupChild _ _ = None |- _ => rewrite H end;
  on_new; step.

(** ** [createCustomResource] *)

(** X12. Called on a node whose application is assigned and on which the
    ids [CustomResourceRole], [CustomResource] and [VpcConfiguration] are
    free, [createCustomResource] completes, defines exactly these three
    children after the existing ones, and changes neither an existing
    child nor a field of the node. *)
Theorem createCustomResource_defines_three_children `{Cdk}
    (subnets groups : option (list string)) (t : This) (a : string) :
  Application t = Some a →
  lookupChild "CustomResourceRole" (children t) = None →
  lookupChild "CustomResource" (children t) = None →
  lookupChild "VpcConfiguration" (children t) = None →
  ∃ t' added,
    createCustomResource subnets groups t = (Normal tt, t')
    ∧ children t' = (children t ++ added)%list
    ∧ added.*1 = ["CustomResourceRole"; "CustomResource"; "VpcConfiguration"]
    ∧ path t' = path t ∧ LogGroup t' = LogGroup t ∧ Application t' = Application t
    ∧ (∀ id r, lookupChild id (children t) = Some r → lookupChild id (children t') = Some r)
    ∧ (customResourceProps t' "VpcConfiguration" ≫= requestOf)
      = Some {| req_ApplicationName := refToken (childPath t a);
                req_SubnetIds := default [] subnets;
                req_SecurityGroupIds := default [] groups |}.
Proof.
  intros Happ H1 H2 H3. destruct t as [p cs lg app]. cbn in *. subst app.
  step. rewrite H1. step. do 2 fresh_step. rewrite <- ?app_assoc. cbn [app].
  eexists _, _. split; [reflexivity|]. cbn [children path LogGroup Application].
  split; [reflexivity|]. split; [run|].
  split; [done|]. split; [done|]. split; [done|].
  split; [intros id r; apply lookupChild_app_kept|].
  unfold customResourceProps. cbn [children]. rewrite lookupChild_app, H3.
  destruct subnets, groups; run.
Qed.

Lemma createCustomResource_defines_three_children_witness :
  Application exampleNode = Some "Application"
  ∧ ∃ t', createCustomResource (H := exampleCdk) (Some ["subnet-1"]) None exampleNode
            = (Normal tt, t')
      ∧ lookupChild "LogGroup" (children t') = Some (RLogGroup 7 RETAIN).
Proof.
  split; [reflexivity|].
  destruct (createCustomResource_defines_three_children (H := exampleCdk)
              (Some ["subnet-1"]) None exampleNode "Application")
    as (t' & added & Hrun & _ & _ & _ & _ & _ & Hkept & _); [run..|].
  exists t'. split; [exact Hrun|]. apply Hkept. run.
Defined.

(** X13. Called on a node whose application is not assigned yet,
    [createCustomResource] throws when it reads the application name,
    before it defines anything: the node is left as it was. *)
Theorem createCustomResource_needs_the_application `{Cdk}
    (subnets groups : option (list string)) (t : This) :
  Application t = None →
  ∃ msg, createCustomResource subnets groups t = (Throw msg, t).
Proof.
  intros Happ. destruct t as [p cs lg app]. cbn in *. subst app.
  step. eauto.
Qed.

Lemma createCustomResource_needs_the_application_witness :
  Application exampleBareNode = None
  ∧ ∃ msg, createCustomResource (H := exampleCdk) (Some []) (Some []) exampleBareNode
           = (Throw msg, exampleBareNode).
Proof.
  split; [reflexivity|].
  apply (createCustomResource_needs_the_application (H := exampleCdk)).
  reflexivity.
Defined.

(** ** [configureLogging] *)

(** X14. Called with a log stream name on a node whose log group and
    application are assigned and on which the id [Logging] is free,
    [configureLogging] completes and defines one child after the
    existing ones: the logging option of that application, for the ARN
    built from the log group's name and the given log stream name. *)
Theorem configureLogging_defines_the_logging_option `{Cdk}
    (name : string) (t : This) (lg a : string) :
  LogGroup t = Some lg →
  Application t = Some a →
  lookupChild "Logging" (children t) = None →
  configureLogging name t =
    (Normal tt,
     withChildren (λ cs, cs ++
       [ ("Logging",
          RCfnApplicationCloudWatchLoggingOptionV2 (refToken (childPath t a))
            ("arn:" ++ Aws_PARTITION ++ ":logs:" ++ Aws_REGION ++ ":" ++ Aws_ACCOUNT_ID
               ++ ":log-group:" ++ refToken (childPath t lg)
               ++ ":log-stream:" ++ name)%string) ])%list t).
Proof.
  intros Hlg Happ Hfree. destruct t as [p cs l app]. cbn in *. subst l app.
  step. rewrite Hfree. step. reflexivity.
Qed.

Lemma configureLogging_witness :
  LogGroup exampleNode = Some "LogGroup"
  ∧ Application exampleNode = Some "Application"
  ∧ (configureLogging (H := exampleCdk) "stream-1" exampleNode).1 = Normal tt.
Proof.
  split; [reflexivity|]. split; [reflexivity|].
  rewrite (configureLogging_defines_the_logging_option (H := exampleCdk)
             "stream-1" exampleNode "LogGroup" "Application"); [reflexivity|run..].
Defined.

(** X15. Called on a node whose log group or application is not
    assigned yet, [configureLogging] throws before it defines anything:
    the node is left as it was. *)
Theorem configureLogging_needs_both_fields `{Cdk} (name : string) (t : This) :
  LogGroup t = None ∨ Application t = None →
  ∃ msg, configureLogging name t = (Throw msg, t).
Proof.
  intros Hmissing. destruct t as [p cs [lg|] [a|]]; cbn in Hmissing.
  - by destruct Hmissing.
  - step. eauto.
  - step. eauto.
  - step. eauto.
Qed.

Lemma configureLogging_needs_both_fields_witness :
  (LogGroup exampleBareNode = None ∨ Application exampleBareNode = None)
  ∧ ∃ msg, configureLogging (H := exampleCdk) "stream-1" exampleBareNode
           = (Throw msg, exampleBareNode).
Proof.
  assert (Hmissing : LogGroup exampleBareNode = None ∨ Application exampleBareNode = None)
    by (left; reflexivity).
  split; [exact Hmissing|].
  apply (configureLogging_needs_both_fields (H := exampleCdk)). exact Hmissing.
Defined.

(** ** [createRole] *)

(** X16. Called on a node whose log group is assigned and on which the
    ids [AppRole], [CodePolicy], [LogsPolicy] and [VpcPolicy] are free,
    [createRole] returns the role and defines exactly these four
    children after the existing ones, none of which it changes.  The
    role has the three policies attached and no delegated grant yet;
    the log policy's second statement is scoped to the ARN of the log
    group the node's field refers to. *)
Theorem createRole_defines_role_and_three_policies `{Cdk}
    (bucketArn fileKey : string) (t : This) (lg : string) :
  LogGroup t = Some lg →
  lookupChild "AppRole" (children t) = None →
  lookupChild "CodePolicy" (children t) = None →
  lookupChild "LogsPolicy" (children t) = None →
  lookupChild "VpcPolicy" (children t) = None →
  ∃ t' added,
    createRole bucketArn fileKey t = (Normal "AppRole", t')
    ∧ children t' = (children t ++ added)%list
    ∧ added.*1 = ["AppRole"; "CodePolicy"; "LogsPolicy"; "VpcPolicy"]
    ∧ path t' = path t ∧ LogGroup t' = LogGroup t ∧ Application t' = Application t
    ∧ (∀ id r, lookupChild id (children t) = Some r → lookupChild id (children t') = Some r)
    ∧ lookupChild "AppRole" (children t')
      = Some (RRole {| assumedBy := "kinesisanalytics.amazonaws.com";
                       attachedPolicies := ["CodePolicy"; "LogsPolicy"; "VpcPolicy"];
                       principalGrants := [] |})
    ∧ map resources (policyStatements t' "LogsPolicy")
      = [ ["arn:" ++ Aws_PARTITION ++ ":logs:" ++ Aws_REGION ++ ":" ++ Aws_ACCOUNT_ID
             ++ ":log-group:*"];
          [attToken (childPath t lg) "Arn"] ].
Proof.
  intros Hlg H1 H2 H3 H4. destruct t as [p cs l app]. cbn in *. subst l.
  step. rewrite H1. step. do 8 fresh_step.
  eexists _, _. split; [reflexivity|]. cbn [children path LogGroup Application].
  split; [reflexivity|]. split; [run|].
  split; [done|]. split; [done|]. split; [done|].
  split; [intros id r; apply lookupChild_app_kept|].
  split.
  - rewrite lookupChild_app, H1. run.
  - unfold policyStatements. cbn [children]. rewrite lookupChild_app, H3. run.
Qed.

Lemma createRole_witness :
  LogGroup exampleNode = Some "LogGroup"
  ∧ ∃ t', createRole (H := exampleCdk) "arn:aws:s3:::code-bucket" "flink/app.zip" exampleNode
            = (Normal "AppRole", t')
      ∧ lookupChild "LogGroup" (children t') = Some (RLogGroup 7 RETAIN).
Proof.
  split; [reflexivity|].
  destruct (createRole_defines_role_and_three_policies (H := exampleCdk)
              "arn:aws:s3:::code-bucket" "flink/app.zip" exampleNode "LogGroup")
    as (t' & added & Hrun & _ & _ & _ & _ & _ & Hkept & _); [run..|].
  exists t'. split; [exact Hrun|]. apply Hkept. run.
Defined.

(** X17. [createRole] reads the log group only after it has defined the
    role and the code policy: called on a node whose log group is not
    assigned yet it throws, leaving behind the role with the code policy
    attached, and the code policy, and no log or VPC policy. *)
Theorem createRole_without_log_group_stops_after_code_policy `{Cdk}
    (bucketArn fileKey : string) (t : This) :
  LogGroup t = None →
  lookupChild "AppRole" (children t) = None →
  lookupChild "CodePolicy" (children t) = None →
  ∃ msg t',
    createRole bucketArn fileKey t = (Throw msg, t')
    ∧ children t' =
        (children t ++
           [ ("AppRole", RRole {| assumedBy := "kinesisanalytics.amazonaws.com";
                                  attachedPolicies := ["CodePolicy"];
                                  principalGrants := [] |});
             ("CodePolicy",
              RPolicy {| statements :=
                           [ {| resources := [(bucketArn ++ "/" ++ fileKey)%string];
                                actions := ["s3:GetObjectVersion"; "s3:GetObject"] |} ];
                         policy_roles := ["AppRole"];
                         rules_to_suppress := [] |}) ])%list.
Proof.
  intros Hlg H1 H2. destruct t as [p cs l app]. cbn in *. subst l.
  step. rewrite H1. step. do 2 fresh_step.
  eexists _, _. split; reflexivity.
Qed.

Lemma createRole_without_log_group_witness :
  LogGroup exampleBareNode = None
  ∧ ∃ msg t', createRole (H := exampleCdk) "arn:aws:s3:::code-bucket" "flink/app.zip"
                exampleBareNode = (Throw msg, t')
      ∧ (children t').*1 = ["LogGroup"; "AppRole"; "CodePolicy"].
Proof.
  split; [reflexivity|].
  destruct (createRole_without_log_group_stops_after_code_policy (H := exampleCdk)
              "arn:aws:s3:::code-bucket" "flink/app.zip" exampleBareNode)
    as (msg & t' & Hrun & Hchildren); [run..|].
  exists msg, t'. split; [exact Hrun|]. rewrite Hchildren. reflexivity.
Defined.

(** * The two allowed sets *)

(** X18. No string is both an allowed log level and an allowed metrics
    level, so a construction given one concretely known value for both
    inputs always fails. *)
Theorem same_known_value_for_both_levels_fails `{Cdk}
    (scope id : string) (props : FlinkApplicationProps) :
  isUnresolved (logLevel props) = false →
  metricsLevel props = logLevel props →
  (∀ v, ¬ (v ∈ AllowedLogLevels ∧ v ∈ AllowedMetricLevels))
  ∧ ∃ msg, FlinkApplication scope id props = (Throw msg, newConstruct scope id).
Proof.
  intros Hknown Hsame.
  assert (Hdisjoint : ∀ v, ¬ (v ∈ AllowedLogLevels ∧ v ∈ AllowedMetricLevels)).
  { intros v [Hl Hm]. unfold AllowedLogLevels in Hl.
    repeat (apply elem_of_cons in Hl as [->|Hl];
            [apply includes_elem_of in Hm; vm_compute in Hm; discriminate Hm|]).
    by apply elem_of_nil in Hl. }
  split; [exact Hdisjoint|]. rewrite FlinkApplication_run.
  destruct (badLogLevel props) eqn:Hl; [eauto|].
  destruct (badMetricsLevel props) eqn:Hm; [eauto|]. exfalso.
  unfold badLogLevel in Hl. unfold badMetricsLevel in Hm.
  rewrite Hsame in Hm. rewrite Hknown in Hl, Hm. cbn in Hl, Hm.
  apply negb_false_iff in Hl, Hm.
  apply (Hdisjoint (logLevel props)). by split; apply includes_elem_of.
Qed.

Lemma same_known_value_for_both_levels_witness :
  isUnresolved (Cdk := exampleCdk) "INFO" = false
  ∧ ∃ msg, FlinkApplication (H := exampleCdk) "Stack" "Flink"
             (withMetricsLevel "INFO" exampleProps)
           = (Throw msg, newConstruct "Stack" "Flink").
Proof.
  split; [run|].
  apply (same_known_value_for_both_levels_fails (H := exampleCdk) "Stack" "Flink"
           (withMetricsLevel "INFO" exampleProps)); run.
Defined.
